(** * Sanrio character design server: a shallow embedding

    The development follows [sanrio_characters/server.py] and
    [sanrio_characters/tools/olog_loader.py].

    - Python values that travel through the code (parsed YAML documents,
      the JSON intent record, the returned dictionaries) are an inductive
      type [pyval]; a [dict] is an association list in insertion order with
      string keys.
    - An operation that can raise returns a [result]; code that also touches
      process state (the global random generator, the caller's intent
      record, the loader caches) lives in the state-and-error monad [M].
    - Text is modelled on the ASCII range: [lower], [capitalize] and
      [split] act on ASCII letters and on the ASCII white space of
      [str.isspace]; a slice counts ASCII characters.  On an ASCII string
      they are the Python methods; on other strings Python also changes
      the case of letters outside ASCII, splits at white space outside
      ASCII and counts characters that take several bytes.  A property
      that the embedding supports for ASCII prompts only is stated with
      the hypothesis [is_ascii].
    - The dict objects a caller passes in live in a heap of their own.  The
      tables the server loads are kept apart from it, so the intent record
      of a call is never one of the loaded table objects. *)

From Stdlib Require Import ZArith Ascii String List Bool Lia.
From stdpp Require Import base option list strings pretty gmap.

Local Open Scope Z_scope.
Set Warnings "-register-all".

(** ** Python values and exceptions *)

Inductive pyval : Type :=
  | VNone
  | VBool (b : bool)
  | VInt (z : Z)
  | VStr (s : string)
  | VList (l : list pyval)
  | VDict (d : list (string * pyval)).

Abbreviation pydict := (list (string * pyval)).

Inductive exn : Type :=
  | KeyError
  | IndexError
  | TypeError
  | AttributeError
  | SystemError.

Inductive result (A : Type) : Type :=
  | Ok (a : A)
  | Raise (e : exn).
Arguments Ok {A} a.
Arguments Raise {A} e.

Definition rbind {A B} (r : result A) (k : A → result B) : result B :=
  match r with
  | Ok a => k a
  | Raise e => Raise e
  end.

Notation "'let?' x := r 'in' k" := (rbind r (fun x => k))
  (at level 10, x pattern, r at level 100, k at level 200).

(** ** Strings *)

Module Py.

Definition is_upper (c : ascii) : bool :=
  let n := N_of_ascii c in ((65 <=? n) && (n <=? 90))%N.

Definition is_lower (c : ascii) : bool :=
  let n := N_of_ascii c in ((97 <=? n) && (n <=? 122))%N.

Definition lower_char (c : ascii) : ascii :=
  if is_upper c then ascii_of_N (N_of_ascii c + 32) else c.

Definition upper_char (c : ascii) : ascii :=
  if is_lower c then ascii_of_N (N_of_ascii c - 32) else c.

(** [str.lower], on ASCII text. *)
Fixpoint lower (s : string) : string :=
  match s with
  | EmptyString => EmptyString
  | String c s' => String (lower_char c) (lower s')
  end.

(** [str.capitalize], on ASCII text: first character upper-cased, the rest
    lower-cased. *)
Definition capitalize (s : string) : string :=
  match s with
  | EmptyString => EmptyString
  | String c s' => String (upper_char c) (lower s')
  end.

(** [str.isspace] on one ASCII character. *)
Definition is_space (c : ascii) : bool :=
  let n := N_of_ascii c in
  (((9 <=? n) && (n <=? 13)) || ((28 <=? n) && (n <=? 32)))%N.

(** [str.split()] with no separator, on ASCII text: maximal runs of
    non-space characters.  [cur] is the token being read, reversed. *)
Fixpoint split_go (cur : option string) (s : string) : list string :=
  match s with
  | EmptyString => option_list (String.rev <$> cur)
  | String c s' =>
      if is_space c
      then option_list (String.rev <$> cur) ++ split_go None s'
      else split_go (Some (String c (default EmptyString cur))) s'
  end.

Definition split (s : string) : list string := split_go None s.

(** [s[:n]], on ASCII text (one character per element). *)
Fixpoint slice_to (n : nat) (s : string) : string :=
  match n, s with
  | S n', String c s' => String c (slice_to n' s')
  | _, _ => EmptyString
  end.

(** [s.replace(old, new)] for one-character [old] and [new]. *)
Fixpoint replace (old new : ascii) (s : string) : string :=
  match s with
  | EmptyString => EmptyString
  | String c s' =>
      String (if Ascii.eqb c old then new else c) (replace old new s')
  end.

(** [needle in hay] on strings: [needle] occurs as a contiguous run. *)
Fixpoint contains (needle hay : string) : bool :=
  String.prefix needle hay ||
  match hay with
  | EmptyString => false
  | String _ hay' => contains needle hay'
  end.

(** ["sep".join(parts)] *)
Fixpoint join (sep : string) (parts : list string) : string :=
  match parts with
  | [] => ""
  | [p] => p
  | p :: rest => p +:+ sep +:+ join sep rest
  end.

End Py.

(** ** Dictionaries and dynamically typed operations *)

Module Dict.
Section ops.
Context {V : Type}.

(** [d.get(k)], [None] when the key is absent. *)
Fixpoint get (k : string) (d : list (string * V)) : option V :=
  match d with
  | [] => None
  | (k', v) :: d' => if String.eqb k' k then Some v else get k d'
  end.

(** [d[k] = v]: the value of an existing key is replaced where it
    stands, a new key goes to the end. *)
Fixpoint set (k : string) (v : V) (d : list (string * V)) : list (string * V) :=
  match d with
  | [] => [(k, v)]
  | (k', v') :: d' =>
      if String.eqb k' k then (k, v) :: d' else (k', v') :: set k v d'
  end.

Definition keys (d : list (string * V)) : list string := d.*1.
End ops.
End Dict.

Module Dyn.

(** [bool(v)] *)
Definition truthy (v : pyval) : bool :=
  match v with
  | VNone => false
  | VBool b => b
  | VInt z => negb (z =? 0)
  | VStr s => negb (String.eqb s "")
  | VList l => match l with [] => false | _ => true end
  | VDict d => match d with [] => false | _ => true end
  end.

(** [v[k]] for a string key. *)
Definition getitem (v : pyval) (k : string) : result pyval :=
  match v with
  | VDict d => match Dict.get k d with Some x => Ok x | None => Raise KeyError end
  | _ => Raise TypeError
  end.

(** [v[0]] *)
Definition getitem0 (v : pyval) : result pyval :=
  match v with
  | VList (x :: _) => Ok x
  | VList [] => Raise IndexError
  | VStr (String c _) => Ok (VStr (String c ""))
  | VStr EmptyString => Raise IndexError
  | VDict _ => Raise KeyError
  | _ => Raise TypeError
  end.

(** [v.get(k, dflt)] *)
Definition get (v : pyval) (k : string) (dflt : pyval) : result pyval :=
  match v with
  | VDict d => Ok (default dflt (Dict.get k d))
  | _ => Raise AttributeError
  end.

(** [v.items()] *)
Definition items (v : pyval) : result pydict :=
  match v with
  | VDict d => Ok d
  | _ => Raise AttributeError
  end.

(** [v.lower()] *)
Definition lower (v : pyval) : result string :=
  match v with
  | VStr s => Ok (Py.lower s)
  | _ => Raise AttributeError
  end.

(** [v.replace('_', ' ')] *)
Definition replace (old new : ascii) (v : pyval) : result string :=
  match v with
  | VStr s => Ok (Py.replace old new s)
  | _ => Raise AttributeError
  end.

Definition is_str (k : string) (v : pyval) : bool :=
  match v with
  | VStr s => String.eqb s k
  | _ => false
  end.

(** [k in v] for a string [k]: key of a dict, element of a list,
    substring of a string. *)
Definition contains (k : string) (v : pyval) : result bool :=
  match v with
  | VDict d => Ok (bool_decide (k ∈ Dict.keys d))
  | VList l => Ok (existsb (is_str k) l)
  | VStr s => Ok (Py.contains k s)
  | _ => Raise TypeError
  end.

(** [isinstance(v, list)] *)
Definition is_list (v : pyval) : bool :=
  match v with
  | VList _ => true
  | _ => false
  end.

Definition hex_digit (n : N) : ascii :=
  ascii_of_N (if (n <? 10)%N then 48 + n else 87 + n)%N.

Definition repr_char (quote c : ascii) : string :=
  let n := N_of_ascii c in
  if Ascii.eqb c quote || Ascii.eqb c "\" then String "\" (String c "")
  else if (n =? 9)%N then "\t"
  else if (n =? 10)%N then "\n"
  else if (n =? 13)%N then "\r"
  else if ((n <? 32) || (n =? 127))%N
    then String "\" (String "x" (String (hex_digit (n / 16)) (String (hex_digit (n mod 16)) "")))
  else String c "".

Fixpoint repr_chars (quote : ascii) (s : string) : string :=
  match s with
  | EmptyString => EmptyString
  | String c s' => repr_char quote c +:+ repr_chars quote s'
  end.

(** [repr] of a string: single quotes, unless the text has a single
    quote and no double quote. *)
Definition repr_str (s : string) : string :=
  let quote : ascii :=
    if Py.contains "'" s && negb (Py.contains (String "034" "") s)
    then "034"%char else "'"%char in
  String quote (repr_chars quote s) +:+ String quote "".

Fixpoint repr (v : pyval) : string :=
  match v with
  | VNone => "None"
  | VBool true => "True"
  | VBool false => "False"
  | VInt z => pretty z
  | VStr s => repr_str s
  | VList l => "[" +:+ Py.join ", " (map repr l) +:+ "]"
  | VDict d =>
      "{" +:+ Py.join ", " (map (fun kv => repr_str kv.1 +:+ ": " +:+ repr kv.2) d) +:+ "}"
  end.

(** [str(v)], the text an f-string inserts for [{v}]. *)
Definition str (v : pyval) : string :=
  match v with
  | VStr s => s
  | _ => repr v
  end.

End Dyn.

(** ** The built-in [hash] on strings

    CPython hashes the bytes of a [str] with SipHash-1-3 under a 128-bit key
    taken from the process-wide hash secret.  The secret is drawn afresh at
    interpreter start, or expanded from [PYTHONHASHSEED] by a linear
    congruential generator ([PYTHONHASHSEED=0] gives the all-zero secret).
    [hash] of a string is therefore a function of the text and of the
    process that computes it. *)

Module PyHash.

Definition u64 (x : Z) : Z := x mod 2 ^ 64.

Definition rotl (x b : Z) : Z :=
  u64 (Z.lor (Z.shiftl x b) (Z.shiftr x (64 - b))).

Record lanes : Type := Lanes { v0 : Z; v1 : Z; v2 : Z; v3 : Z }.

(** [HALF_ROUND(a, b, c, d, s, t)], returning the new [(a, b, c, d)]. *)
Definition half_round (a b c d s t : Z) : Z * Z * Z * Z :=
  let a := u64 (a + b) in
  let c := u64 (c + d) in
  let b := Z.lxor (rotl b s) a in
  let d := Z.lxor (rotl d t) c in
  let a := rotl a 32 in
  (a, b, c, d).

(** [SINGLE_ROUND(v0, v1, v2, v3)] *)
Definition single_round (v : lanes) : lanes :=
  let '(a0, a1, a2, a3) := half_round (v0 v) (v1 v) (v2 v) (v3 v) 13 16 in
  let '(b2, b1, b0, b3) := half_round a2 a1 a0 a3 17 21 in
  Lanes b0 b1 b2 b3.

(** Little-endian value of at most eight bytes. *)
Fixpoint le_bytes (bs : list Z) : Z :=
  match bs with
  | [] => 0
  | b :: bs' => b + 256 * le_bytes bs'
  end.

(** The [while (src_sz >= 8)] loop, run for [blocks] full words. *)
Fixpoint compress (blocks : nat) (src : list Z) (v : lanes) : lanes * list Z :=
  match blocks with
  | O => (v, src)
  | S n =>
      let mi := le_bytes (take 8 src) in
      let v := single_round (Lanes (v0 v) (v1 v) (v2 v) (Z.lxor (v3 v) mi)) in
      compress n (drop 8 src) (Lanes (Z.lxor (v0 v) mi) (v1 v) (v2 v) (v3 v))
  end.

Definition siphash13 (k0 k1 : Z) (src : list Z) : Z :=
  let len := Z.of_nat (length src) in
  let v := Lanes (Z.lxor k0 0x736f6d6570736575) (Z.lxor k1 0x646f72616e646f6d)
                 (Z.lxor k0 0x6c7967656e657261) (Z.lxor k1 0x7465646279746573) in
  let '(v, tail) := compress (Z.to_nat (len / 8)) src v in
  let b := Z.lor (u64 (Z.shiftl len 56)) (le_bytes tail) in
  let v := single_round (Lanes (v0 v) (v1 v) (v2 v) (Z.lxor (v3 v) b)) in
  let v := Lanes (Z.lxor (v0 v) b) (v1 v) (Z.lxor (v2 v) 0xff) (v3 v) in
  let v := single_round (single_round (single_round v)) in
  Z.lxor (Z.lxor (v0 v) (v1 v)) (Z.lxor (v2 v) (v3 v)).

(** The hash secret of a process: the two SipHash key words. *)
Record secret : Type := Secret { k0 : Z; k1 : Z }.

(** [lcg_urandom]: the bytes a non-zero [PYTHONHASHSEED] expands to. *)
Fixpoint lcg_urandom (n : nat) (x : Z) : list Z :=
  match n with
  | O => []
  | S n' =>
      let x := (x * 214013 + 2531011) mod 2 ^ 32 in
      Z.land (Z.shiftr x 16) 0xff :: lcg_urandom n' x
  end.

Definition secret_of_seed (seed : Z) : secret :=
  if seed =? 0 then Secret 0 0
  else
    let bytes := lcg_urandom 16 seed in
    Secret (le_bytes (take 8 bytes)) (le_bytes (drop 8 bytes)).

Definition bytes_of (s : string) : list Z :=
  (fun c => Z.of_N (N_of_ascii c)) <$> list_ascii_of_string s.

(** Reading the unsigned word as [Py_hash_t]. *)
Definition signed64 (x : Z) : Z :=
  if x <? 2 ^ 63 then x else x - 2 ^ 64.

(** [hash(s)] for a string [s]; the empty string hashes to [0] and the
    value [-1] is reserved. *)
Definition hash (k : secret) (s : string) : Z :=
  match s with
  | EmptyString => 0
  | _ =>
      let x := signed64 (siphash13 (k0 k) (k1 k) (bytes_of s)) in
      if x =? -1 then -2 else x
  end.

End PyHash.

(** ** [tools/olog_loader.py] *)

(** What [open] and [yaml.safe_load] make of one olog file. *)
Inductive source : Type :=
  | Missing
  | Unparsable
  | Parsed (doc : pyval).

Inductive load_error : Type :=
  | FileNotFoundError
  | YAMLError.

(** An entry of the flattened taxonomy: the dict with keys [description],
    [instances] and [properties] that [get_taxonomy] builds. *)
Record dimension : Type := Dimension {
  description : pyval;
  instances : list pyval;
  properties : pyval;
}.

Abbreviation taxonomy := (list (string * dimension)).

Module OlogLoader.

Record t : Type := Loader {
  aesthetic_olog : pyval;
  intentionality_olog : pyval;
  taxonomy_cache : option taxonomy;
  intent_mapping_cache : pyval;
}.

Definition read (src : source) : load_error + pyval :=
  match src with
  | Missing => inl FileNotFoundError
  | Unparsable => inl YAMLError
  | Parsed doc => inr doc
  end.

(** [__init__] followed by [_load_ologs]: the aesthetic olog is read
    first, then the intentionality olog; either failure is re-raised. *)
Definition _load_ologs (aesthetic intentionality : source) : load_error + t :=
  match read aesthetic with
  | inl e => inl e
  | inr a =>
      match read intentionality with
      | inl e => inl e
      | inr i => inr (Loader a i None VNone)
      end
  end.

(** The body of the [for type_name, type_def in types_dict.items()] loop
    of [get_taxonomy]; [acc] is the [taxonomy] dict built so far. *)
Fixpoint flatten (items : pydict) (acc : taxonomy) : result taxonomy :=
  match items with
  | [] => Ok acc
  | (type_name, type_def) :: rest =>
      let? has := Dyn.contains "instances" type_def in
      if has then
        let? insts := Dyn.getitem type_def "instances" in
        match insts with
        | VList l =>
            let? descr := Dyn.get type_def "description" (VStr "") in
            let? props := Dyn.get type_def "properties" (VDict []) in
            flatten rest (Dict.set type_name (Dimension descr l props) acc)
        | _ => flatten rest acc
        end
      else flatten rest acc
  end.

(** The methods below return the loader next to their outcome: a cache
    assigned before a raise stays assigned. *)
Definition get_taxonomy (self : t) : result taxonomy * t :=
  match taxonomy_cache self with
  | Some cached => (Ok cached, self)
  | None =>
      let built :=
        let? olog := Dyn.getitem (aesthetic_olog self) "olog" in
        let? types_dict := Dyn.get olog "types" (VDict []) in
        let? items := Dyn.items types_dict in
        flatten items [] in
      match built with
      | Ok tx =>
          (Ok tx, Loader (aesthetic_olog self) (intentionality_olog self)
                         (Some tx) (intent_mapping_cache self))
      | Raise e => (Raise e, self)
      end
  end.

Definition get_intentionality_instances (self : t) : result pyval * t :=
  match intent_mapping_cache self with
  | VNone =>
      let fetched :=
        let? olog := Dyn.getitem (intentionality_olog self) "olog" in
        Dyn.get olog "instances" (VDict []) in
      match fetched with
      | Ok insts =>
          (Ok insts, Loader (aesthetic_olog self) (intentionality_olog self)
                            (taxonomy_cache self) insts)
      | Raise e => (Raise e, self)
      end
  | cached => (Ok cached, self)
  end.

(** [instances.get(archetype_name)], [VNone] for an unknown name. *)
Definition get_archetype_rules (self : t) (archetype_name : string)
  : result pyval * t :=
  match get_intentionality_instances self with
  | (Ok insts, self) => (Dyn.get insts archetype_name VNone, self)
  | (Raise e, self) => (Raise e, self)
  end.

(** [olog.get('commutative_diagrams', {})] on the aesthetic olog. *)
Definition get_commutative_diagrams (self : t) : result pyval :=
  let? olog := Dyn.getitem (aesthetic_olog self) "olog" in
  Dyn.get olog "commutative_diagrams" (VDict []).

End OlogLoader.

(** ** Process state *)

Abbreviation loc := positive.

(** The module-level generator of [random]: seeded by the system at
    import, or by the last [random.seed]. *)
Inductive rng_state : Type :=
  | SystemSeeded
  | Seeded (seed : Z).

(** The globals of [server.py], the interpreter state the server touches,
    and the heap of dict objects a caller may pass in.  The heap holds the
    caller's own objects only: the loaded tables are the values of
    [OLOG_LOADER], [TAXONOMY] and [ARCHETYPES], and none of them (nor a dict
    inside one) is behind a location. *)
Record process : Type := Process {
  OLOG_LOADER : OlogLoader.t;
  TAXONOMY : taxonomy;
  ARCHETYPES : pyval;
  random_state : rng_state;
  heap : gmap loc pydict;
  hash_secret : PyHash.secret;
}.

Inductive start_error : Type :=
  | LoadFailed (e : load_error)
  | ImportRaised (e : exn).

(** Importing [server.py]: build the loader, then read both tables. *)
Definition import_server (aesthetic intentionality : source)
    (k : PyHash.secret) (h : gmap loc pydict) : start_error + process :=
  match OlogLoader._load_ologs aesthetic intentionality with
  | inl e => inl (LoadFailed e)
  | inr loader =>
      match OlogLoader.get_taxonomy loader with
      | (Raise e, _) => inl (ImportRaised e)
      | (Ok tx, loader) =>
          match OlogLoader.get_intentionality_instances loader with
          | (Raise e, _) => inl (ImportRaised e)
          | (Ok archetypes, loader) =>
              inr (Process loader tx archetypes SystemSeeded h k)
          end
      end
  end.

(** State-and-error monad: a raise keeps the state reached so far. *)
Definition M (A : Type) : Type := process → result A * process.

Definition ret {A} (a : A) : M A := fun w => (Ok a, w).

Definition bind {A B} (m : M A) (k : A → M B) : M B :=
  fun w =>
    match m w with
    | (Ok a, w') => k a w'
    | (Raise e, w') => (Raise e, w')
    end.

Definition lift {A} (r : result A) : M A := fun w => (r, w).

Definition ask : M process := fun w => (Ok w, w).

Notation "'let!' x := m 'in' k" := (bind m (fun x => k))
  (at level 10, x pattern, m at level 100, k at level 200).

Definition set_random_state (s : rng_state) (w : process) : process :=
  Process (OLOG_LOADER w) (TAXONOMY w) (ARCHETYPES w) s (heap w) (hash_secret w).

Definition set_heap (h : gmap loc pydict) (w : process) : process :=
  Process (OLOG_LOADER w) (TAXONOMY w) (ARCHETYPES w) (random_state w) h
          (hash_secret w).

Definition set_loader (loader : OlogLoader.t) (w : process) : process :=
  Process loader (TAXONOMY w) (ARCHETYPES w) (random_state w) (heap w)
          (hash_secret w).

(** [random.seed(seed)] *)
Definition random_seed (seed : Z) : M unit :=
  fun w => (Ok (), set_random_state (Seeded seed) w).

(** Reading the dict object behind a reference.  Python has no dangling
    references; the model reports one as [SystemError]. *)
Definition deref (l : loc) : M pydict :=
  fun w =>
    match heap w !! l with
    | Some d => (Ok d, w)
    | None => (Raise SystemError, w)
    end.

(** [obj[k] = v] on the dict object behind [l], one of the caller's. *)
Definition setitem (l : loc) (k : string) (v : pyval) : M unit :=
  fun w =>
    match heap w !! l with
    | Some d => (Ok (), set_heap (<[l := Dict.set k v d]> (heap w)) w)
    | None => (Raise SystemError, w)
    end.

(** ** [server.py]: mapping a design intent to taxonomy choices *)

(** [TAXONOMY[name]['instances']] *)
Definition taxonomy_instances (tx : taxonomy) (name : string) : result (list pyval) :=
  match Dict.get name tx with
  | Some dim => Ok (instances dim)
  | None => Raise KeyError
  end.

(** [d[k]] on a dict built by the server itself. *)
Definition item (d : pydict) (k : string) : result pyval :=
  Dyn.getitem (VDict d) k.

(** [design_intent.get(k, "").lower()] *)
Definition intent_text (design_intent : pydict) (k : string) : result string :=
  Dyn.lower (default (VStr "") (Dict.get k design_intent)).

Definition color_mapping : list (string * string) :=
  [ ("muted", "dusty_rose_sage_cream");
    ("dusty", "dusty_rose_sage_cream");
    ("desaturated", "dusty_rose_sage_cream");
    ("warm", "butter_yellow_peach_blue");
    ("cozy", "butter_yellow_peach_blue");
    ("cool", "lavender_mint_sky_blue");
    ("ethereal", "pale_lavender_pearl_white");
    ("vivid", "coral_mint_cream");
    ("pastel", "soft_pink_lavender_mint") ].

Definition facial_mapping : list (string * string) :=
  [ ("joyful_character_archetype", "dot_eyes_curved_smile");
    ("melancholic_character_archetype", "closed_happy_eyes");
    ("anxious_character_archetype", "worried_upturned_eyes");
    ("sleepy_character_archetype", "closed_curved_eyes");
    ("mischievous_character_archetype", "sparkle_mischievous_grin");
    ("dreamy_character_archetype", "wide_dreamy_eyes");
    ("determined_character_archetype", "focused_straight_gaze") ].

(** The [if]/[elif] chain on the head shape: the id a branch assigns, or
    [None] when no branch is taken and the default stays. *)
Definition head_shape_rule (weight_feeling primary_shape : string) : option string :=
  if Py.contains "droop" weight_feeling || Py.contains "droop" primary_shape
  then Some "elongated_teardrop"
  else if Py.contains "curved" primary_shape || Py.contains "flowing" primary_shape
  then Some "cat_like_curved"
  else if Py.contains "blob" primary_shape || Py.contains "amorphous" primary_shape
  then Some "minimalist_blob"
  else if Py.contains "geometric" primary_shape || Py.contains "sharp" primary_shape
  then Some "simplified_geometric"
  else if Py.contains "wide" primary_shape || Py.contains "flat" primary_shape
  then Some "wide_and_flat"
  else if Py.contains "pointed" primary_shape || Py.contains "spike" primary_shape
  then Some "ovoid_with_point"
  else if Py.contains "round" weight_feeling || Py.contains "soft" weight_feeling
  then Some "large_round_orb"
  else None.

(** The [if]/[elif]/[else] chain on the body proportion. *)
Definition body_proportion_rule (weight_feeling size_implication : string) : string :=
  if Py.contains "tiny" size_implication || Py.contains "insignificant" size_implication
     || Py.contains "miniature" weight_feeling
  then "tiny_torso_large_head"
  else if Py.contains "weighted" weight_feeling || Py.contains "heavy" weight_feeling
          || Py.contains "grounded" weight_feeling
  then "body_focused_30_70"
  else if Py.contains "fluid" weight_feeling || Py.contains "flowing" weight_feeling
          || Py.contains "extended" weight_feeling
  then "extended_and_fluid"
  else if Py.contains "limbless" weight_feeling || Py.contains "blob" weight_feeling
  then "limbless_blob"
  else if Py.contains "head-heavy" size_implication || Py.contains "top-heavy" weight_feeling
  then "head_dominant_80_20"
  else "balanced_cute_50_50".

(** The [if]/[elif]/[else] chain on the size category. *)
Definition size_category_rule (size_implication : string) : string :=
  if Py.contains "tiny" size_implication || Py.contains "pocket" size_implication
     || Py.contains "miniature" size_implication
  then "small_plush_toy"
  else if Py.contains "small" size_implication || Py.contains "delicate" size_implication
  then "small_decorative"
  else if Py.contains "medium" size_implication || Py.contains "standard" size_implication
  then "medium_standard"
  else if Py.contains "large" size_implication || Py.contains "prominent" size_implication
  then "large_display"
  else "medium_standard".

Definition _map_intent_to_design_choices (w : process) (design_intent : pydict)
  : result pydict :=
  let? head_shapes := taxonomy_instances (TAXONOMY w) "HeadShape" in
  let? body_proportions := taxonomy_instances (TAXONOMY w) "BodyProportion" in
  let? color_triads := taxonomy_instances (TAXONOMY w) "ColorTriad" in
  let? size_categories := taxonomy_instances (TAXONOMY w) "SizeCategory" in
  let? facial_styles := taxonomy_instances (TAXONOMY w) "FacialStyle" in
  (* Initialize with defaults *)
  let? head0 := Dyn.getitem0 (VList head_shapes) in
  let? body0 := Dyn.getitem0 (VList body_proportions) in
  let? face0 := Dyn.getitem0 (VList facial_styles) in
  let? olog := Dyn.getitem (OlogLoader.aesthetic_olog (OLOG_LOADER w)) "olog" in
  let? types := Dyn.getitem olog "types" in
  let? triad := Dyn.getitem types "ColorTriad" in
  let? triad_instances := Dyn.getitem triad "instances" in
  let? color0 := Dyn.getitem0 triad_instances in
  let? size0 := Dyn.getitem0 (VList size_categories) in
  let selected : pydict :=
    [ ("head_shape", head0); ("body_proportion", body0); ("facial_style", face0);
      ("color_triad", color0); ("size_category", size0) ] in
  (* Map weight_feeling and primary_shape to head shape *)
  let? weight_feeling := intent_text design_intent "weight_feeling" in
  let? primary_shape := intent_text design_intent "primary_shape" in
  let selected :=
    match head_shape_rule weight_feeling primary_shape with
    | Some id => Dict.set "head_shape" (VStr id) selected
    | None => selected
    end in
  (* Map weight_feeling and size_implication to body proportion *)
  let? size_implication := intent_text design_intent "size_implication" in
  let selected :=
    Dict.set "body_proportion"
      (VStr (body_proportion_rule weight_feeling size_implication)) selected in
  (* Map color_feeling to color triad *)
  let? color_feeling := intent_text design_intent "color_feeling" in
  let? inferred_tone := intent_text design_intent "inferred_emotional_tone" in
  let selected :=
    Dict.set "color_triad"
      (VStr (default "soft_pink_lavender_mint" (Dict.get color_feeling color_mapping)))
      selected in
  (* Map emotional tone to facial style *)
  let selected :=
    Dict.set "facial_style"
      (VStr (default "dot_eyes_curved_smile" (Dict.get inferred_tone facial_mapping)))
      selected in
  (* Map size_implication to size category *)
  let selected :=
    Dict.set "size_category" (VStr (size_category_rule size_implication)) selected in
  Ok selected.

(** [rationale_parts.append(part)] when [cond] holds. *)
Definition append_if (cond : bool) (part : string) (parts : list string) : list string :=
  if cond then parts ++ [part] else parts.

Definition _get_design_rationale (design_choices design_intent : pydict)
  : result string :=
  let rationale_parts : list string := [] in
  let head_shape := default (VStr "") (Dict.get "head_shape" design_choices) in
  let? weight_feeling := intent_text design_intent "weight_feeling" in
  let rationale_parts :=
    append_if (Py.contains "droop" weight_feeling)
      ("The " +:+ Dyn.str head_shape +:+ " head shape conveys drooping and introspection")
      rationale_parts in
  let body_prop := default (VStr "") (Dict.get "body_proportion" design_choices) in
  let? weight_feeling := intent_text design_intent "weight_feeling" in
  let rationale_parts :=
    append_if (Py.contains "weighted" weight_feeling)
      ("The " +:+ Dyn.str body_prop +:+ " proportion grounds the character's weight")
      rationale_parts in
  let color := default (VStr "") (Dict.get "color_triad" design_choices) in
  let? color_feeling := intent_text design_intent "color_feeling" in
  let rationale_parts :=
    append_if (Py.contains "muted" color_feeling)
      ("The " +:+ Dyn.str color +:+ " palette reflects muted emotional tone")
      rationale_parts in
  let size := default (VStr "") (Dict.get "size_category" design_choices) in
  let? size_implication := intent_text design_intent "size_implication" in
  let rationale_parts :=
    append_if (Py.contains "small" size_implication)
      ("The " +:+ Dyn.str size +:+ " reflects vulnerability and intimacy")
      rationale_parts in
  let rationale_parts :=
    match rationale_parts with
    | [] => ["Design choices selected to match emotional intent"]
    | _ => rationale_parts
    end in
  Ok (Py.join "; " rationale_parts).

(** ** [server.py]: the two tools *)

(** The values a [for kw in keywords] loop visits. *)
Definition iterate (v : pyval) : result (list pyval) :=
  match v with
  | VList l => Ok l
  | VDict d => Ok (VStr <$> Dict.keys d)
  | VStr s => Ok ((fun c => VStr (String c "")) <$> list_ascii_of_string s)
  | _ => Raise TypeError
  end.

(** [any(kw in prompt_lower for kw in keywords)]: stops at the first hit. *)
Fixpoint any_in (prompt_lower : string) (keywords : list pyval) : result bool :=
  match keywords with
  | [] => Ok false
  | VStr kw :: rest =>
      if Py.contains kw prompt_lower then Ok true else any_in prompt_lower rest
  | _ :: _ => Raise TypeError
  end.

(** The [for archetype_name, archetype in ARCHETYPES.items()] loop with its
    [break]: the first archetype one of whose keywords occurs in the prompt. *)
Fixpoint match_archetype (prompt_lower : string) (items : pydict)
  : result (option (string * pyval)) :=
  match items with
  | [] => Ok None
  | (archetype_name, archetype) :: rest =>
      let? keywords := Dyn.get archetype "design_intent_keywords" (VList []) in
      let? kws := iterate keywords in
      let? hit := any_in prompt_lower kws in
      if hit then Ok (Some (archetype_name, archetype))
      else match_archetype prompt_lower rest
  end.

(** Step 1 of [_generate_sanrio_character_impl]: [(inferred_tone,
    inferred_archetype)], with the joyful default when [not inferred_tone]. *)
Definition infer_archetype (archetypes : pyval) (prompt_lower : string)
  : result (string * pyval) :=
  let? items := Dyn.items archetypes in
  let? found := match_archetype prompt_lower items in
  let fallback :=
    let? joyful := Dyn.get archetypes "joyful_character_archetype" (VDict []) in
    Ok ("joyful_character_archetype", joyful) in
  match found with
  | Some (inferred_tone, inferred_archetype) =>
      if Dyn.truthy (VStr inferred_tone)
      then Ok (inferred_tone, inferred_archetype)
      else fallback
  | None => fallback
  end.

Definition name_prefixes : list (string * string) :=
  [ ("joyful_character_archetype", "Joy");
    ("melancholic_character_archetype", "Melan");
    ("anxious_character_archetype", "Anx");
    ("sleepy_character_archetype", "Sleep");
    ("mischievous_character_archetype", "Misc");
    ("dreamy_character_archetype", "Dream");
    ("determined_character_archetype", "Det") ].

(** Step 2: [hash(user_prompt) % 100]. *)
Definition derive_seed (k : PyHash.secret) (user_prompt : string) : Z :=
  PyHash.hash k user_prompt mod 100.

(** Step 3, the branch taken when no usable intent is given. *)
Definition archetype_defaults : pydict :=
  [ ("head_shape", VStr "large_round_orb");
    ("body_proportion", VStr "balanced_cute_50_50");
    ("facial_style", VStr "dot_eyes_curved_smile");
    ("color_triad", VStr "soft_pink_lavender_mint");
    ("size_category", VStr "small_plush_toy") ].

Definition universal_principles : list pyval :=
  [ VStr "Proportion precision: maintain ratio relationships";
    VStr "Feature economy: each feature must earn its existence";
    VStr "Pastel restraint: stay within soft color spectrum";
    VStr "Approachability priority: no sharp edges or judgment";
    VStr "Emotional honesty: character must be authentic to its emotion" ].

Definition olog_source : pydict :=
  [ ("aesthetic_olog", VStr "sanrio.olog.yaml");
    ("intentionality_olog", VStr "sanrio_intentionality.olog.yaml");
    ("morphisms_applied",
      VList [ VStr "design_intent_to_head_shape";
              VStr "design_intent_to_body_proportion";
              VStr "design_intent_to_color_triad";
              VStr "design_intent_to_facial_style" ]);
    ("commutative_diagrams_checked",
      VList [ VStr "proportional_coherence";
              VStr "emotional_coherence";
              VStr "expressiveness_balance" ]) ].

(** [design_choices[k].replace('_', ' ')] *)
Definition spaced (design_choices : pydict) (k : string) : result string :=
  let? v := item design_choices k in
  Dyn.replace "_" " " v.

(** Step 5: the returned dict. *)
Definition design_specification (name inferred_tone : string) (seed : Z)
    (user_prompt : string) (design_choices : pydict) (inferred_archetype : pyval)
    (design_rationale : string) : result pydict :=
  let? head_shape := item design_choices "head_shape" in
  let? body_proportion := item design_choices "body_proportion" in
  let? facial_style := item design_choices "facial_style" in
  let? size_category := item design_choices "size_category" in
  let? color_triad := item design_choices "color_triad" in
  let? core_intention := Dyn.get inferred_archetype "core_intention" (VStr "") in
  let? composition_principle :=
    Dyn.get inferred_archetype "composition_principle" (VStr "") in
  let? why_this_works := Dyn.get inferred_archetype "why_this_works" (VStr "") in
  let? head_text := spaced design_choices "head_shape" in
  let? body_text := spaced design_choices "body_proportion" in
  let? face_text := spaced design_choices "facial_style" in
  let? size_text := spaced design_choices "size_category" in
  let? color_text := spaced design_choices "color_triad" in
  Ok [ ("character_name", VStr name);
       ("emotional_tone", VStr inferred_tone);
       ("design_seed", VInt seed);
       ("user_prompt", VStr user_prompt);
       ("head_shape", head_shape);
       ("body_proportion", body_proportion);
       ("facial_style", facial_style);
       ("size_category", size_category);
       ("color_triad", color_triad);
       ("archetype", VStr inferred_tone);
       ("core_intention", core_intention);
       ("composition_principle", composition_principle);
       ("design_rationale", VStr design_rationale);
       ("why_this_works", why_this_works);
       ("design_guidelines",
         VDict
           [ ("aesthetic",
               VStr "Sanrio style: cute, simplified shapes, minimal features, pastel-friendly");
             ("head_description",
               VStr ("Use a " +:+ head_text +:+ " shape for the head"));
             ("body_description", VStr ("Body should be " +:+ body_text));
             ("facial_description", VStr ("Face features: " +:+ face_text));
             ("size_note", VStr ("Character size: " +:+ size_text));
             ("color_note", VStr ("Use " +:+ color_text +:+ " color palette"));
             ("universal_principles", VList universal_principles) ]);
       ("olog_source", VDict olog_source) ].

(** [prompt_lower.split()[0][:3]] *)
Definition first_word_of (prompt_lower : string) : result string :=
  match Py.split prompt_lower with
  | [] => Raise IndexError
  | token :: _ => Ok (Py.slice_to 3 token)
  end.

(** [design_intent] is [None] or a reference to the caller's dict. *)
Definition _generate_sanrio_character_impl (user_prompt : string)
    (design_intent : option loc) : M pydict :=
  let prompt_lower := Py.lower user_prompt in
  (* Step 1: infer the archetype from the prompt *)
  let! w := ask in
  let! (inferred_tone, inferred_archetype) :=
    lift (infer_archetype (ARCHETYPES w) prompt_lower) in
  (* Step 2: deterministic seeding *)
  let seed := derive_seed (hash_secret w) user_prompt in
  let! _ := random_seed seed in
  (* Step 3: map design intent to taxonomy choices *)
  let! given :=
    match design_intent with
    | None => ret None
    | Some l =>
        let! d := deref l in
        ret (if Dyn.truthy (VDict d) then Some l else None)
    end in
  let! (design_choices, design_rationale) :=
    match given with
    | Some l =>
        let! _ := setitem l "inferred_emotional_tone" (VStr inferred_tone) in
        let! w := ask in
        let! d := deref l in
        let! design_choices := lift (_map_intent_to_design_choices w d) in
        let! design_rationale := lift (_get_design_rationale design_choices d) in
        ret (design_choices, design_rationale)
    | None =>
        let! archetype_comp :=
          lift (Dyn.get inferred_archetype "composition_principle" (VStr "")) in
        ret (archetype_defaults, "Archetype-based selection: " +:+ inferred_tone)
    end in
  (* Step 4: generate the character name *)
  let! first_word := lift (first_word_of prompt_lower) in
  let prefix := default "Sanrio" (Dict.get inferred_tone name_prefixes) in
  let name := prefix +:+ Py.capitalize first_word in
  (* Step 5: the complete design specification *)
  lift (design_specification name inferred_tone seed user_prompt design_choices
          inferred_archetype design_rationale).

Definition generate_sanrio_character (user_prompt : string)
    (design_intent : option loc) : M pydict :=
  _generate_sanrio_character_impl user_prompt design_intent.

Definition get_archetype_rules (emotional_tone : string) : M pydict :=
  fun w =>
    let '(looked_up, loader) :=
      OlogLoader.get_archetype_rules (OLOG_LOADER w) emotional_tone in
    let w := set_loader loader w in
    match looked_up with
    | Raise e => (Raise e, w)
    | Ok archetype =>
        if negb (Dyn.truthy archetype)
        then (Ok [("error", VStr ("Unknown archetype: " +:+ emotional_tone))], w)
        else
          let rules :=
            let? core_intention := Dyn.get archetype "core_intention" (VStr "") in
            let? composition_principle :=
              Dyn.get archetype "composition_principle" (VStr "") in
            let? why_this_works := Dyn.get archetype "why_this_works" (VStr "") in
            let? sensory_principles :=
              Dyn.get archetype "sensory_principles" (VList []) in
            let? proportion_rules := Dyn.get archetype "proportion_rules" (VDict []) in
            let? design_keywords :=
              Dyn.get archetype "design_intent_keywords" (VList []) in
            let? forbidden_combinations :=
              Dyn.get archetype "forbidden_combinations" (VList []) in
            let? examples := Dyn.get archetype "examples" (VList []) in
            Ok [ ("archetype", VStr emotional_tone);
                 ("core_intention", core_intention);
                 ("composition_principle", composition_principle);
                 ("why_this_works", why_this_works);
                 ("sensory_principles", sensory_principles);
                 ("proportion_rules", proportion_rules);
                 ("design_keywords", design_keywords);
                 ("forbidden_combinations", forbidden_combinations);
                 ("examples", examples) ] in
          (rules, w)
    end.

(** ** A sample repository

    The two olog documents are data files outside the code.  The sample
    below declares, per dimension, the instance ids that the rules of
    [_map_intent_to_design_choices] name, and the seven archetypes that the
    test suite expects, each with a few keywords. *)

Module Sample.

Definition head_shapes : list string :=
  [ "large_round_orb"; "elongated_teardrop"; "cat_like_curved";
    "minimalist_blob"; "simplified_geometric"; "wide_and_flat";
    "ovoid_with_point" ].

Definition body_proportions : list string :=
  [ "balanced_cute_50_50"; "tiny_torso_large_head"; "body_focused_30_70";
    "extended_and_fluid"; "limbless_blob"; "head_dominant_80_20" ].

Definition facial_styles : list string :=
  [ "dot_eyes_curved_smile"; "closed_happy_eyes"; "worried_upturned_eyes";
    "closed_curved_eyes"; "sparkle_mischievous_grin"; "wide_dreamy_eyes";
    "focused_straight_gaze" ].

Definition color_triads : list string :=
  [ "soft_pink_lavender_mint"; "dusty_rose_sage_cream";
    "butter_yellow_peach_blue"; "lavender_mint_sky_blue";
    "pale_lavender_pearl_white"; "coral_mint_cream" ].

Definition size_categories : list string :=
  [ "small_plush_toy"; "small_decorative"; "medium_standard"; "large_display" ].

Definition dimension_doc (descr : string) (ids : list string) : pyval :=
  VDict [ ("description", VStr descr); ("instances", VList (VStr <$> ids)) ].

Definition types : pydict :=
  [ ("HeadShape", dimension_doc "shape of the head" head_shapes);
    ("BodyProportion", dimension_doc "head to body ratio" body_proportions);
    ("FacialStyle", dimension_doc "eyes and mouth" facial_styles);
    ("ColorTriad", dimension_doc "three-colour palette" color_triads);
    ("SizeCategory", dimension_doc "physical size" size_categories);
    ("Character", VDict [ ("description", VStr "a designed character") ]) ].

(** A [types] section with a dimension without instances and a
    dimension that lists an id twice. *)
Definition degenerate_types : pydict :=
  [ ("HeadShape", dimension_doc "shape of the head" []);
    ("BodyProportion", dimension_doc "head to body ratio" body_proportions);
    ("FacialStyle", dimension_doc "eyes and mouth" facial_styles);
    ("ColorTriad", dimension_doc "three-colour palette"
       ["soft_pink_lavender_mint"; "soft_pink_lavender_mint"]);
    ("SizeCategory", dimension_doc "physical size" size_categories) ].

(** A [types] section whose head shapes are a single id. *)
Definition narrow_types : pydict :=
  [ ("HeadShape", dimension_doc "shape of the head" ["large_round_orb"]);
    ("BodyProportion", dimension_doc "head to body ratio" body_proportions);
    ("FacialStyle", dimension_doc "eyes and mouth" facial_styles);
    ("ColorTriad", dimension_doc "three-colour palette" color_triads);
    ("SizeCategory", dimension_doc "physical size" size_categories) ].

Definition aesthetic_of (types : pydict) : pyval :=
  VDict [ ("olog", VDict [ ("name", VStr "sanrio"); ("types", VDict types) ]) ].

Definition aesthetic : pyval := aesthetic_of types.

Definition archetype_doc (intention : string) (keywords : list string) : pyval :=
  VDict [ ("core_intention", VStr intention);
          ("design_intent_keywords", VList (VStr <$> keywords)) ].

Definition catalogue : pydict :=
  [ ("joyful_character_archetype", archetype_doc "delight" ["happy"; "joy"]);
    ("melancholic_character_archetype",
      archetype_doc "gentle sadness" ["sad"; "melanchol"; "procrastinat"]);
    ("anxious_character_archetype", archetype_doc "worry" ["anxious"; "nervous"]);
    ("sleepy_character_archetype", archetype_doc "rest" ["sleepy"; "tired"]);
    ("mischievous_character_archetype", archetype_doc "play" ["mischie"; "prank"]);
    ("dreamy_character_archetype", archetype_doc "wonder" ["dream"]);
    ("determined_character_archetype", archetype_doc "resolve" ["determin"]) ].

Definition intentionality : pyval :=
  VDict [ ("olog", VDict [ ("instances", VDict catalogue) ]) ].

(** The server process after import, with hash secret [k] and caller
    objects [h]. *)
Definition started (k : PyHash.secret) (h : gmap loc pydict) : start_error + process :=
  import_server (Parsed aesthetic) (Parsed intentionality) k h.

Definition dimension_of (descr : string) (ids : list string) : dimension :=
  Dimension (VStr descr) (VStr <$> ids) (VDict []).

Definition taxonomy_table : taxonomy :=
  [ ("HeadShape", dimension_of "shape of the head" head_shapes);
    ("BodyProportion", dimension_of "head to body ratio" body_proportions);
    ("FacialStyle", dimension_of "eyes and mouth" facial_styles);
    ("ColorTriad", dimension_of "three-colour palette" color_triads);
    ("SizeCategory", dimension_of "physical size" size_categories) ].

(** The state [started] reaches. *)
Definition server (k : PyHash.secret) (h : gmap loc pydict) : process :=
  Process (OlogLoader.Loader aesthetic intentionality (Some taxonomy_table)
             (VDict catalogue))
          taxonomy_table (VDict catalogue) SystemSeeded h k.

End Sample.

(** * Vocabulary of the properties *)

(** [kw] occurs in [text] as a contiguous run of characters. *)
Definition occurs_in (kw text : string) : Prop :=
  ∃ pre post, text = pre +:+ kw +:+ post.

(** [kws] is the keyword list of an archetype entry: the entry is a dict
    and its [design_intent_keywords], when present, lists strings. *)
Definition archetype_keywords (archetype : pyval) (kws : list string) : Prop :=
  ∃ d, archetype = VDict d
       ∧ default (VList []) (Dict.get "design_intent_keywords" d) = VList (VStr <$> kws).

(** Every entry of the catalogue has a non-empty name and a keyword list. *)
Definition valid_catalogue (items : pydict) : Prop :=
  Forall (λ e, e.1 ≠ "" ∧ ∃ kws, archetype_keywords e.2 kws) items.

(** One of the archetype's keywords occurs in the text. *)
Definition matches (text : string) (archetype : pyval) : Prop :=
  ∃ kws kw, archetype_keywords archetype kws ∧ kw ∈ kws ∧ occurs_in kw text.

(** How the design choices of a successful call came about: the fixed
    defaults when no intent (or an empty one) was passed, and otherwise the
    mapping of the caller's record, after the inferred tone was written
    into it. *)
Inductive resolved (w : process) (tone : string)
  : option loc → pydict → string → process → Prop :=
  | resolved_absent :
      resolved w tone None archetype_defaults
        ("Archetype-based selection: " +:+ tone) w
  | resolved_empty (l : loc) :
      heap w !! l = Some [] →
      resolved w tone (Some l) archetype_defaults
        ("Archetype-based selection: " +:+ tone) w
  | resolved_mapped (l : loc) (d : pydict) (choices : pydict) (rationale : string) :
      heap w !! l = Some d →
      d ≠ [] →
      let d' := Dict.set "inferred_emotional_tone" (VStr tone) d in
      let w' := set_heap (<[l := d']> (heap w)) w in
      _map_intent_to_design_choices w' d' = Ok choices →
      _get_design_rationale choices d' = Ok rationale →
      resolved w tone (Some l) choices rationale w'.

(** [frame design_intent w w']: going from [w] to [w'] leaves the loaded
    tables and the hash secret as they are, leaves every object other than
    the caller's intent record as it is, and changes in that record at most
    the key [inferred_emotional_tone]. *)
Record frame (design_intent : option loc) (w w' : process) : Prop := Frame {
  frame_loader : OLOG_LOADER w' = OLOG_LOADER w;
  frame_taxonomy : TAXONOMY w' = TAXONOMY w;
  frame_archetypes : ARCHETYPES w' = ARCHETYPES w;
  frame_secret : hash_secret w' = hash_secret w;
  frame_others : ∀ l, design_intent ≠ Some l → heap w' !! l = heap w !! l;
  frame_intent : ∀ l d,
    design_intent = Some l → heap w !! l = Some d →
    ∃ d', heap w' !! l = Some d'
          ∧ ∀ k, k ≠ "inferred_emotional_tone" → Dict.get k d' = Dict.get k d;
}.

(** The random generator is as before, or was seeded with [seed]. *)
Definition reseeded (seed : Z) (w w' : process) : Prop :=
  random_state w' = random_state w ∨ random_state w' = Seeded seed.

(** A computation every run of which ends in a state related to its
    start. *)
Definition stays (R : relation process) {A} (m : M A) : Prop :=
  ∀ w, R w (m w).2.

(** The value is a dict. *)
Definition is_dict (v : pyval) : Prop := ∃ d, v = VDict d.

(** An entry [type_def] of the [types] section declares the instance
    list [l]. *)
Definition declares_instances (type_def : pyval) (l : list pyval) : Prop :=
  ∃ td, type_def = VDict td ∧ Dict.get "instances" td = Some (VList l).

(** Every instance id that the rules or the defaults of the server can
    assign, with its dimension. *)
Definition rule_literals : list (string * string) :=
  [ ("HeadShape", "elongated_teardrop"); ("HeadShape", "cat_like_curved");
    ("HeadShape", "minimalist_blob"); ("HeadShape", "simplified_geometric");
    ("HeadShape", "wide_and_flat"); ("HeadShape", "ovoid_with_point");
    ("HeadShape", "large_round_orb");
    ("BodyProportion", "tiny_torso_large_head");
    ("BodyProportion", "body_focused_30_70");
    ("BodyProportion", "extended_and_fluid"); ("BodyProportion", "limbless_blob");
    ("BodyProportion", "head_dominant_80_20");
    ("BodyProportion", "balanced_cute_50_50");
    ("ColorTriad", "dusty_rose_sage_cream");
    ("ColorTriad", "butter_yellow_peach_blue");
    ("ColorTriad", "lavender_mint_sky_blue");
    ("ColorTriad", "pale_lavender_pearl_white"); ("ColorTriad", "coral_mint_cream");
    ("ColorTriad", "soft_pink_lavender_mint");
    ("FacialStyle", "dot_eyes_curved_smile"); ("FacialStyle", "closed_happy_eyes");
    ("FacialStyle", "worried_upturned_eyes"); ("FacialStyle", "closed_curved_eyes");
    ("FacialStyle", "sparkle_mischievous_grin"); ("FacialStyle", "wide_dreamy_eyes");
    ("FacialStyle", "focused_straight_gaze");
    ("SizeCategory", "small_plush_toy"); ("SizeCategory", "small_decorative");
    ("SizeCategory", "medium_standard"); ("SizeCategory", "large_display") ].

(** The taxonomy lists each of these ids under its dimension. *)
Definition declares_rule_literals (tx : taxonomy) : Prop :=
  ∀ dim id, (dim, id) ∈ rule_literals →
            ∃ insts, taxonomy_instances tx dim = Ok insts ∧ VStr id ∈ insts.

(** The key of each design choice and the dimension it belongs to. *)
Definition choice_keys : list (string * string) :=
  [ ("head_shape", "HeadShape"); ("body_proportion", "BodyProportion");
    ("facial_style", "FacialStyle"); ("color_triad", "ColorTriad");
    ("size_category", "SizeCategory") ].

(** Each of the five choices in [d] is an instance of its dimension. *)
Definition closed_under (tx : taxonomy) (d : pydict) : Prop :=
  ∀ key dim, (key, dim) ∈ choice_keys →
             ∃ v insts, Dict.get key d = Some v
                        ∧ taxonomy_instances tx dim = Ok insts ∧ v ∈ insts.

(** The five dimensions the mapping reads from the taxonomy. *)
Definition dimension_names : list string :=
  [ "HeadShape"; "BodyProportion"; "ColorTriad"; "SizeCategory"; "FacialStyle" ].

(** The taxonomy of the process is the one the loader builds from the
    [types] section of its aesthetic document. *)
Definition taxonomy_loaded (w : process) : Prop :=
  ∃ doc olog types,
    OlogLoader.aesthetic_olog (OLOG_LOADER w) = VDict doc
    ∧ Dict.get "olog" doc = Some (VDict olog)
    ∧ Dict.get "types" olog = Some (VDict types)
    ∧ NoDup (Dict.keys types)
    ∧ OlogLoader.flatten types [] = Ok (TAXONOMY w).

(** The dimension has at least one instance, and its instances are ids. *)
Definition has_instances (w : process) (name : string) : Prop :=
  ∃ id ids, taxonomy_instances (TAXONOMY w) name = Ok (VStr <$> (id :: ids)).

(** The taxonomy was loaded from the aesthetic document and each of the
    five dimensions has instances. *)
Definition valid_taxonomy (w : process) : Prop :=
  taxonomy_loaded w ∧ Forall (has_instances w) dimension_names.


(** The text of an intent field: the empty string when the key is absent. *)
Definition field_text (design_intent : pydict) (k : string) : string :=
  match Dict.get k design_intent with
  | Some (VStr s) => s
  | _ => ""
  end.

(** The field is absent or holds a string. *)
Definition text_or_absent (design_intent : pydict) (k : string) : Prop :=
  ∀ v, Dict.get k design_intent = Some v → ∃ s, v = VStr s.

(** The intent fields whose text the mapping and the rationale read. *)
Definition intent_fields : list string :=
  [ "weight_feeling"; "primary_shape"; "size_implication"; "color_feeling" ].

(** Every character of the text is ASCII ([str.isascii]). *)
Definition is_ascii (s : string) : Prop :=
  Forall (λ c, (N_of_ascii c < 128)%N) (list_ascii_of_string s).


(** The intent argument is absent or is a dict object of the caller's own,
    that is, an object of the heap; it is not one of the loaded tables. *)
Definition caller_record (w : process) (design_intent : option loc) : Prop :=
  match design_intent with
  | None => True
  | Some l => is_Some (heap w !! l)
  end.

(** The prompt has a character that is not white space. *)
Definition has_token (s : string) : Prop :=
  ∃ c, c ∈ list_ascii_of_string s ∧ Py.is_space c = false.


(** The five choices are all present and all strings. *)
Definition string_choices (choices : pydict) : Prop :=
  Forall (λ key, ∃ s, Dict.get key choices = Some (VStr s)) (choice_keys.*1).

(** The text has an upper-case ASCII letter. *)
Definition has_upper (s : string) : Prop :=
  ∃ c, c ∈ list_ascii_of_string s ∧ Py.is_upper c = true.

(** * Properties *)

(** ** The models of the built-ins, on examples *)

Example lower_mixed : Py.lower "Happy Day!" = "happy day!".
Proof. reflexivity. Qed.

Example split_runs : Py.split "  the  feeling of" = ["the"; "feeling"; "of"].
Proof. reflexivity. Qed.

Example split_blank : Py.split "   " = [].
Proof. reflexivity. Qed.

Example capitalize_the : Py.capitalize (Py.slice_to 3 "the") = "The".
Proof. reflexivity. Qed.

Example contains_inner : Py.contains "droop" "a drooping ear" = true.
Proof. reflexivity. Qed.

Example contains_empty_needle : Py.contains "" "abc" = true.
Proof. reflexivity. Qed.

Example repr_nested :
  Dyn.str (VList [VInt 1; VStr "a"; VNone; VBool true; VDict [("k", VStr "it's")]])
  = String.concat "" ["[1, 'a', None, True, {'k': "; String "034" "it's"; String "034" "}]"].
Proof. vm_compute. reflexivity. Qed.

(** [hash] as CPython 3.11 computes it under [PYTHONHASHSEED] 0 and 1. *)
Example hash_a_seed0 :
  PyHash.hash (PyHash.secret_of_seed 0) "a" = 4644417185603328019.
Proof. vm_compute. reflexivity. Qed.

Example hash_procrastination_seed0 :
  PyHash.hash (PyHash.secret_of_seed 0) "procrastination" = -9119110822343188049.
Proof. vm_compute. reflexivity. Qed.

Example hash_happy_character_seed1 :
  PyHash.hash (PyHash.secret_of_seed 1) "happy character" = 7179359249734192142.
Proof. vm_compute. reflexivity. Qed.

Example sample_started (k : PyHash.secret) (h : gmap loc pydict) :
  Sample.started k h = inr (Sample.server k h).
Proof. reflexivity. Qed.

(** ** Substring occurrence *)

#[local] Arguments String.append !_ _ / : simpl nomatch.

Lemma prefix_true_iff (needle hay : string) :
  String.prefix needle hay = true ↔ ∃ post, hay = needle +:+ post.
Proof.
  revert hay. induction needle as [|a needle IH]; intros hay.
  - split; [intros _; by exists hay | by destruct hay].
  - destruct hay as [|b hay]; simpl.
    + split; [done | intros [post Hpost]; discriminate].
    + destruct (ascii_dec a b) as [->|Hab].
      * rewrite IH. split; intros [post Hpost]; exists post.
        -- by rewrite Hpost.
        -- by injection Hpost.
      * split; [done | intros [post Hpost]; injection Hpost; congruence].
Qed.

Lemma contains_true_iff (needle hay : string) :
  Py.contains needle hay = true ↔ occurs_in needle hay.
Proof.
  unfold occurs_in. induction hay as [|c hay IH]; cbn [Py.contains].
  - rewrite orb_false_r, prefix_true_iff. split.
    + intros [post Hpost]. by exists "", post.
    + intros [[|? pre] [post Hpost]]; [by exists post | discriminate].
  - rewrite orb_true_iff, prefix_true_iff, IH. split.
    + intros [[post Hpost] | (pre & post & Hpost)].
      * by exists "", post.
      * exists (String c pre), post. simpl. by rewrite Hpost.
    + intros ([|c' pre] & post & Hpost).
      * left. by exists post.
      * right. exists pre, post. simpl in Hpost. by injection Hpost.
Qed.

(** ** The archetype catalogue *)

#[local] Instance VStr_inj : Inj (=) (=) VStr.
Proof. by intros ?? [=]. Qed.

Lemma any_in_strings (text : string) (kws : list string) :
  any_in text (VStr <$> kws) = Ok (existsb (λ kw, Py.contains kw text) kws).
Proof.
  induction kws as [|kw kws IH]; [done|].
  rewrite fmap_cons. cbn [any_in existsb].
  destruct (Py.contains kw text); [done | by rewrite IH].
Qed.

Lemma existsb_contains_matches (text : string) (archetype : pyval) (kws : list string) :
  archetype_keywords archetype kws →
  existsb (λ kw, Py.contains kw text) kws = true ↔ matches text archetype.
Proof.
  intros Hkws. rewrite existsb_exists. split.
  - intros (kw & Hin & Hc). exists kws, kw.
    by rewrite <- list_elem_of_In, contains_true_iff in *.
  - intros (kws' & kw & (d' & Hd' & Hk') & Hin & Hocc).
    destruct Hkws as (d & -> & Hk). injection Hd' as <-.
    rewrite Hk in Hk'. injection Hk' as Heq. apply (inj (fmap VStr)) in Heq as ->.
    exists kw. by rewrite <- list_elem_of_In, contains_true_iff.
Qed.

Lemma match_archetype_step (text name : string) (archetype : pyval)
    (kws : list string) (rest : pydict) :
  archetype_keywords archetype kws →
  match_archetype text ((name, archetype) :: rest)
  = if existsb (λ kw, Py.contains kw text) kws
    then Ok (Some (name, archetype))
    else match_archetype text rest.
Proof.
  intros (d & -> & Hk). simpl. rewrite Hk. simpl.
  by rewrite any_in_strings.
Qed.


Lemma match_archetype_none (text : string) (items : pydict) :
  valid_catalogue items →
  Forall (λ e, ¬ matches text e.2) items →
  match_archetype text items = Ok None.
Proof.
  intros Hvalid Hnone. induction items as [|[n a] items IH]; [done|].
  apply Forall_cons in Hvalid as [[_ [kws Hkws]] Hvalid].
  apply Forall_cons in Hnone as [Hno Hnone].
  rewrite (match_archetype_step _ _ _ kws) by done.
  destruct (existsb _ kws) eqn:Hex; [|by apply IH].
  exfalso. apply Hno. by eapply existsb_contains_matches.
Qed.

(** A hit of the loop is an entry of the catalogue. *)
Lemma match_archetype_elem (text : string) (items : pydict)
    (name : string) (archetype : pyval) :
  match_archetype text items = Ok (Some (name, archetype)) →
  (name, archetype) ∈ items ∧ ∃ d, archetype = VDict d.
Proof.
  induction items as [|[n a] items IH]; simpl; [done|].
  destruct a as [| | | | |d]; simpl; try done.
  destruct (iterate _) as [kws|]; simpl; [|done].
  destruct (any_in text kws) as [[]|]; simpl; [| |done].
  - intros [= -> <-]. split; [left | by exists d].
  - intros H. apply IH in H as [? ?]. split; [by right | done].
Qed.

(** ** Classification (step 1 of the design tool) *)

(** Unfolding one [let?]. *)
Lemma rbind_ok_inv {A B} (r : result A) (k : A → result B) (b : B) :
  rbind r k = Ok b → ∃ a, r = Ok a ∧ k a = Ok b.
Proof. destruct r as [a|e]; [by exists a | done]. Qed.

(** Unfolding one [let!]. *)
Lemma bind_ok_inv {A B} (m : M A) (k : A → M B) (w w' : process) (b : B) :
  bind m k w = (Ok b, w') →
  ∃ a w1, m w = (Ok a, w1) ∧ k a w1 = (Ok b, w').
Proof.
  unfold bind. destruct (m w) as [[a|e] w1]; [|done].
  intros H. by exists a, w1.
Qed.

Lemma lift_ok_inv {A} (r : result A) (w w' : process) (a : A) :
  lift r w = (Ok a, w') → r = Ok a ∧ w' = w.
Proof. by intros [= -> ->]. Qed.

Lemma impl_ok_inv (user_prompt : string) (design_intent : option loc)
    (w w' : process) (spec : pydict) :
  _generate_sanrio_character_impl user_prompt design_intent w = (Ok spec, w') →
  ∃ tone archetype choices rationale first_word,
    infer_archetype (ARCHETYPES w) (Py.lower user_prompt) = Ok (tone, archetype)
    ∧ resolved (set_random_state (Seeded (derive_seed (hash_secret w) user_prompt)) w)
        tone design_intent choices rationale w'
    ∧ first_word_of (Py.lower user_prompt) = Ok first_word
    ∧ design_specification
        (default "Sanrio" (Dict.get tone name_prefixes) +:+ Py.capitalize first_word)
        tone (derive_seed (hash_secret w) user_prompt) user_prompt choices
        archetype rationale = Ok spec.
Proof.
  unfold _generate_sanrio_character_impl. intros H.
  apply bind_ok_inv in H as (w0 & ? & [= <- <-] & H).
  apply bind_ok_inv in H as ([tone archetype] & ? & [Hinfer ->]%lift_ok_inv & H).
  apply bind_ok_inv in H as ([] & w1 & [= <-] & H).
  set (seed := derive_seed (hash_secret w) user_prompt) in *.
  apply bind_ok_inv in H as (given & w2 & Hgiven & H).
  apply bind_ok_inv in H as ([choices rationale] & w3 & Hchoices & H).
  apply bind_ok_inv in H as (first_word & ? & [Hfirst ->]%lift_ok_inv & H).
  apply lift_ok_inv in H as [Hspec ->].
  exists tone, archetype, choices, rationale, first_word.
  split_and!; [done| |done|done].
  destruct design_intent as [l|].
  - apply bind_ok_inv in Hgiven as (d & ? & Hd & [= <- <-]).
    unfold deref in Hd. destruct (heap _ !! l) as [d0|] eqn:Hl; [|done].
    injection Hd as <- <-.
    destruct d0 as [|kv d].
    { apply bind_ok_inv in Hchoices as (? & ? & [_ ->]%lift_ok_inv & [= <- <- <-]).
      by constructor. }
    assert (kv :: d ≠ []) as Hne by done.
    remember (kv :: d) as d0 eqn:Hd0. clear Hd0.
    apply bind_ok_inv in Hchoices as ([] & w4 & Hset & Hchoices).
    unfold setitem in Hset. rewrite Hl in Hset. injection Hset as <-.
    apply bind_ok_inv in Hchoices as (? & ? & [= <- <-] & Hchoices).
    apply bind_ok_inv in Hchoices as (d' & ? & Hd' & Hchoices).
    unfold deref in Hd'. cbn [heap set_heap] in Hd'. rewrite lookup_insert_eq in Hd'.
    injection Hd' as <- <-.
    apply bind_ok_inv in Hchoices as (? & ? & [Hmap ->]%lift_ok_inv & Hchoices).
    apply bind_ok_inv in Hchoices as (? & ? & [Hrat ->]%lift_ok_inv & [= <- <- <-]).
    exact (resolved_mapped (set_random_state (Seeded seed) w) tone l d0 x x0 Hl Hne Hmap Hrat).
  - injection Hgiven as <- <-. simpl in Hchoices.
    apply bind_ok_inv in Hchoices as (? & ? & [_ ->]%lift_ok_inv & [= <- <- <-]).
    by constructor.
Qed.

(** The fields of a returned specification that carry the classification,
    the seed, the name and the five choices. *)
Lemma design_specification_fields (name tone : string) (seed : Z)
    (user_prompt : string) (choices : pydict) (archetype : pyval)
    (rationale : string) (spec : pydict) :
  design_specification name tone seed user_prompt choices archetype rationale
  = Ok spec →
  Dict.get "character_name" spec = Some (VStr name)
  ∧ Dict.get "emotional_tone" spec = Some (VStr tone)
  ∧ Dict.get "archetype" spec = Some (VStr tone)
  ∧ Dict.get "design_seed" spec = Some (VInt seed)
  ∧ Dict.get "head_shape" spec = Dict.get "head_shape" choices
  ∧ Dict.get "body_proportion" spec = Dict.get "body_proportion" choices
  ∧ Dict.get "facial_style" spec = Dict.get "facial_style" choices
  ∧ Dict.get "color_triad" spec = Dict.get "color_triad" choices
  ∧ Dict.get "size_category" spec = Dict.get "size_category" choices.
Proof.
  unfold design_specification, item, Dyn.getitem. intros H.
  destruct (Dict.get "head_shape" choices) as [head|]; [|done].
  destruct (Dict.get "body_proportion" choices) as [body|]; [|done].
  destruct (Dict.get "facial_style" choices) as [face|]; [|done].
  destruct (Dict.get "size_category" choices) as [size|]; [|done].
  destruct (Dict.get "color_triad" choices) as [color|]; [|done].
  cbn [rbind] in H.
  repeat (apply rbind_ok_inv in H as (? & _ & H)).
  by injection H as <-.
Qed.


Lemma sample_archetype_keywords (descr : string) (kws : list string) :
  archetype_keywords (Sample.archetype_doc descr kws) kws.
Proof. by eexists. Qed.

Lemma sample_catalogue_valid : valid_catalogue Sample.catalogue.
Proof.
  unfold valid_catalogue, Sample.catalogue, Sample.archetype_doc.
  repeat (apply Forall_cons; split;
          [split; [done | eexists; apply sample_archetype_keywords] | ]).
  apply Forall_nil_2.
Qed.


(** ** What a call may change *)

Lemma dict_get_set_eq {V} (k : string) (v : V) (d : list (string * V)) :
  Dict.get k (Dict.set k v d) = Some v.
Proof.
  induction d as [|[k' v'] d IH]; simpl.
  - by rewrite String.eqb_refl.
  - destruct (String.eqb k' k) eqn:Hk; simpl.
    + by rewrite String.eqb_refl.
    + by rewrite Hk.
Qed.

Lemma dict_get_set_ne {V} (k k' : string) (v : V) (d : list (string * V)) :
  k ≠ k' → Dict.get k (Dict.set k' v d) = Dict.get k d.
Proof.
  intros Hne. induction d as [|[k0 v0] d IH]; simpl.
  - destruct (String.eqb_spec k' k); [congruence | done].
  - destruct (String.eqb_spec k0 k'); simpl.
    + subst k0. destruct (String.eqb_spec k' k); [congruence | done].
    + by destruct (String.eqb_spec k0 k).
Qed.

#[local] Instance frame_preorder (di : option loc) : PreOrder (frame di).
Proof.
  split.
  - intros w. split; try done. intros l d _ Hd. by exists d.
  - intros w1 w2 w3 [] []. split; try congruence.
    + intros l Hl. by rewrite frame_others1, frame_others0.
    + intros l d Hl Hd.
      destruct (frame_intent0 l d Hl Hd) as (d2 & Hd2 & Hsame2).
      destruct (frame_intent1 l d2 Hl Hd2) as (d3 & Hd3 & Hsame3).
      exists d3. split; [done|]. intros k Hk. by rewrite Hsame3, Hsame2.
Qed.

#[local] Instance reseeded_preorder (seed : Z) : PreOrder (reseeded seed).
Proof.
  split.
  - intros w. by left.
  - intros w1 w2 w3 [H12|H12] [H23|H23]; unfold reseeded; rewrite ?H23, ?H12; auto.
Qed.

Section stays.
Context (R : relation process) `{!PreOrder R}.

Lemma stays_bind_post {A B} (m : M A) (k : A → M B) (P : A → Prop) :
  stays R m →
  (∀ w a, (m w).1 = Ok a → P a) →
  (∀ a, P a → stays R (k a)) →
  stays R (bind m k).
Proof.
  intros Hm HP Hk w. unfold bind. specialize (Hm w). specialize (HP w).
  destruct (m w) as [[a|e] w1]; [|done].
  etrans; [exact Hm | by apply Hk, HP].
Qed.

Lemma stays_bind {A B} (m : M A) (k : A → M B) :
  stays R m → (∀ a, stays R (k a)) → stays R (bind m k).
Proof. intros Hm Hk. apply (stays_bind_post m k (λ _, True)); auto. Qed.

Lemma stays_lift {A} (r : result A) : stays R (lift r).
Proof. by intros w. Qed.

Lemma stays_ret {A} (a : A) : stays R (ret a).
Proof. by intros w. Qed.

Lemma stays_ask : stays R ask.
Proof. by intros w. Qed.

Lemma stays_deref (l : loc) : stays R (deref l).
Proof. intros w. unfold deref. by destruct (heap w !! l). Qed.

(** The design tool stays within [R] as soon as its two writes do. *)
Lemma impl_stays (user_prompt : string) (design_intent : option loc)
    (w : process) :
  stays R (random_seed (derive_seed (hash_secret w) user_prompt)) →
  (∀ l v, design_intent = Some l →
          stays R (setitem l "inferred_emotional_tone" v)) →
  R w (_generate_sanrio_character_impl user_prompt design_intent w).2.
Proof.
  intros Hseed Hset.
  unfold _generate_sanrio_character_impl. unfold bind at 1, ask.
  match goal with |- R w (?m w).2 => cut (stays R m); [by intros Hs|] end.
  apply stays_bind; [apply stays_lift|]. intros [tone archetype].
  apply stays_bind; [done|]. intros _.
  apply (stays_bind_post _ _ (λ given, given = None ∨ given = design_intent)).
  { destruct design_intent as [l|]; [|apply stays_ret].
    apply stays_bind; [apply stays_deref | intros ?; apply stays_ret]. }
  { intros w1 [l|] Hgiven; [right | by left].
    destruct design_intent as [l0|]; [|done].
    unfold bind, deref, ret in Hgiven.
    destruct (heap w1 !! l0) as [d|]; [|done].
    cbn [fst] in Hgiven. by destruct (Dyn.truthy (VDict d)); simplify_eq. }
  intros given Hgiven.
  apply stays_bind;
    [|intros [choices rationale]; apply stays_bind;
      [apply stays_lift | intros ?; apply stays_lift]].
  destruct given as [l|].
  - destruct Hgiven as [|<-]; [done|].
    apply stays_bind; [by apply Hset | intros _].
    apply stays_bind; [apply stays_ask | intros ?].
    apply stays_bind; [apply stays_deref | intros ?].
    apply stays_bind; [apply stays_lift | intros ?].
    apply stays_bind; [apply stays_lift | intros ?; apply stays_ret].
  - apply stays_bind; [apply stays_lift | intros ?; apply stays_ret].
Qed.
End stays.

Lemma random_seed_frame (di : option loc) (seed : Z) :
  stays (frame di) (random_seed seed).
Proof. intros w. split; try done. intros l d _ Hd. by exists d. Qed.

Lemma setitem_frame (l : loc) (v : pyval) :
  stays (frame (Some l)) (setitem l "inferred_emotional_tone" v).
Proof.
  intros w. unfold setitem. destruct (heap w !! l) as [d|] eqn:Hl; [|done].
  split; try done; cbn [snd heap set_heap].
  - intros l' Hl'. rewrite lookup_insert_ne; [done | congruence].
  - intros ? d0 [= <-] Hd0. rewrite Hl in Hd0. injection Hd0 as <-.
    eexists. split; [apply lookup_insert_eq|].
    intros k Hk. by apply dict_get_set_ne.
Qed.

Lemma impl_within_frame (user_prompt : string) (design_intent : option loc)
    (w : process) :
  frame design_intent w
    (_generate_sanrio_character_impl user_prompt design_intent w).2.
Proof.
  apply (impl_stays (frame design_intent)); [apply random_seed_frame|].
  intros l v ->. apply setitem_frame.
Qed.

Lemma impl_reseeded (user_prompt : string) (design_intent : option loc)
    (w : process) :
  reseeded (derive_seed (hash_secret w) user_prompt) w
    (_generate_sanrio_character_impl user_prompt design_intent w).2.
Proof.
  apply (impl_stays (reseeded _)); [by right|].
  intros l v _ w1. left. unfold setitem. by destruct (heap w1 !! l).
Qed.

(** ** Determinism of the design tool without intent *)

(** Without an intent, the outcome of a call is read off the archetype
    catalogue and the hash secret alone. *)
Lemma no_intent_outcome_reads (user_prompt : string) (w1 w2 : process) :
  ARCHETYPES w1 = ARCHETYPES w2 →
  hash_secret w1 = hash_secret w2 →
  (_generate_sanrio_character_impl user_prompt None w1).1
  = (_generate_sanrio_character_impl user_prompt None w2).1.
Proof.
  intros Harch Hsecret.
  unfold _generate_sanrio_character_impl, bind, ask, lift, ret, random_seed.
  rewrite Harch, Hsecret.
  destruct (infer_archetype _ _) as [[tone archetype]|e]; [|done].
  destruct (Dyn.get archetype _ _) as [comp|e]; [|done].
  destruct (first_word_of _) as [first_word|e]; [|done].
  by destruct (design_specification _ _ _ _ _ _ _).
Qed.

(** C1. Two calls with the same prompt and no intent, made in the same
    process (same hash secret) over the same archetype catalogue, have the
    same outcome, hence the same name, choices and seed, whatever else
    differs between the two states.  In particular the call can be repeated:
    the state it leaves gives the same outcome again. *)
Theorem generate_design_deterministic (user_prompt : string) (w1 w2 : process) :
  ARCHETYPES w1 = ARCHETYPES w2 →
  hash_secret w1 = hash_secret w2 →
  (_generate_sanrio_character_impl user_prompt None w1).1
  = (_generate_sanrio_character_impl user_prompt None w2).1
  ∧ (_generate_sanrio_character_impl user_prompt None
       (_generate_sanrio_character_impl user_prompt None w1).2).1
    = (_generate_sanrio_character_impl user_prompt None w1).1.
Proof.
  intros Harch Hsecret. split; [by apply no_intent_outcome_reads|].
  destruct (impl_within_frame user_prompt None w1).
  by apply no_intent_outcome_reads.
Qed.

Lemma generate_design_deterministic_witness :
  let w1 := Sample.server (PyHash.secret_of_seed 0) ∅ in
  let w2 := set_random_state (Seeded 7)
              (set_heap {[ 1%positive := [("mood", VStr "calm")] ]} w1) in
  ARCHETYPES w1 = ARCHETYPES w2
  ∧ hash_secret w1 = hash_secret w2
  ∧ (_generate_sanrio_character_impl "procrastination" None w1).1
    = (_generate_sanrio_character_impl "procrastination" None w2).1
  ∧ ∃ spec, (_generate_sanrio_character_impl "procrastination" None w1).1 = Ok spec
            ∧ Dict.get "character_name" spec = Some (VStr "MelanPro")
            ∧ Dict.get "design_seed" spec = Some (VInt 51).
Proof.
  intros w1 w2. split; [reflexivity|]. split; [reflexivity|].
  split.
  - exact (proj1 (generate_design_deterministic "procrastination" w1 w2
                    eq_refl eq_refl)).
  - eexists. split; [vm_compute; reflexivity|]. split; reflexivity.
Defined.

(** ** Effects of the design tool *)

(** C10, as amended. Take a call of the design tool whose intent argument
    is absent or a record of the caller's own, not one of the table objects
    the server loaded ([caller_record]).  The call leaves the loader, the
    taxonomy, the archetype catalogue and the hash secret as they are and
    touches no object other than the caller's intent record.  It does
    change state: the random generator is re-seeded with the derived seed,
    and a non-empty intent record receives the inferred archetype name under
    the key [inferred_emotional_tone], its other keys staying as they are.
    The tool writes through the reference it is given, so nothing is said
    of a call that is handed a loaded table as its intent: there the write
    lands in the table. *)
Theorem generate_design_frame (user_prompt : string) (design_intent : option loc)
    (w w' : process) (outcome : result pydict) :
  caller_record w design_intent →
  _generate_sanrio_character_impl user_prompt design_intent w = (outcome, w') →
  frame design_intent w w'
  ∧ reseeded (derive_seed (hash_secret w) user_prompt) w w'
  ∧ ∀ spec, outcome = Ok spec →
      random_state w' = Seeded (derive_seed (hash_secret w) user_prompt)
      ∧ (∀ l d, design_intent = Some l → heap w !! l = Some d → d ≠ [] →
           ∃ tone, Dict.get "emotional_tone" spec = Some (VStr tone)
                   ∧ heap w' = <[l := Dict.set "inferred_emotional_tone" (VStr tone) d]>
                                 (heap w))
      ∧ ((design_intent = None ∨ ∃ l, design_intent = Some l ∧ heap w !! l = Some []) →
         heap w' = heap w).
Proof.
  intros _ Hcall.
  pose proof (impl_within_frame user_prompt design_intent w) as Hframe.
  pose proof (impl_reseeded user_prompt design_intent w) as Hseed.
  rewrite Hcall in Hframe, Hseed. split_and!; [done..|].
  intros spec ->.
  apply impl_ok_inv in Hcall
    as (tone & archetype & choices & rationale & fw & _ & Hres & _ & Hspec).
  apply design_specification_fields in Hspec as (_ & Htone & _).
  inversion Hres as [|l Hl|l d ? ? Hl Hne d' w1 Hmap Hrat]; subst; cbn in *.
  - split_and!; [done | intros; simplify_eq | done].
  - split_and!; [done | intros; simplify_eq | done].
  - split_and!; [done | |].
    + intros ? d0 [= <-] Hd0 _. rewrite Hl in Hd0. injection Hd0 as <-.
      by exists tone.
    + intros [|(? & [= <-] & Hempty)]; [done|]. congruence.
Qed.

Lemma generate_design_frame_witness :
  let h : gmap loc pydict := {[ 1%positive := [("mood", VStr "calm")] ]} in
  let w := Sample.server (PyHash.secret_of_seed 0) h in
  let call := _generate_sanrio_character_impl "Happy" (Some 1%positive) w in
  caller_record w (Some 1%positive)
  ∧ frame (Some 1%positive) w call.2
  ∧ random_state call.2 = Seeded 39
  ∧ heap call.2 !! 1%positive
    = Some [("mood", VStr "calm");
            ("inferred_emotional_tone", VStr "joyful_character_archetype")].
Proof.
  intros h w call.
  assert (caller_record w (Some 1%positive)) as Hown by (by eexists).
  destruct (generate_design_frame "Happy" (Some 1%positive) w call.2 call.1 Hown)
    as (Hframe & _ & Hok).
  { apply surjective_pairing. }
  split; [exact Hown|].
  split; [exact Hframe|].
  destruct (Hok _ eq_refl) as (Hseed & Hintent & _).
  split; [exact Hseed|].
  destruct (Hintent 1%positive [("mood", VStr "calm")] eq_refl eq_refl)
    as (tone & Htone & Hheap); [done|].
  rewrite Hheap, lookup_insert_eq. by injection Htone as <-.
Defined.

(** C10, as stated, fails: the call below returns a design, and afterwards
    the caller's record has a key it did not have and the random generator
    of the process is in another state. *)
Lemma generate_design_mutates_state :
  let h : gmap loc pydict := {[ 1%positive := [("mood", VStr "calm")] ]} in
  let w := Sample.server (PyHash.secret_of_seed 0) h in
  let call := _generate_sanrio_character_impl "Happy" (Some 1%positive) w in
  (∃ spec, call.1 = Ok spec)
  ∧ heap w !! 1%positive = Some [("mood", VStr "calm")]
  ∧ heap call.2 !! 1%positive
    = Some [("mood", VStr "calm");
            ("inferred_emotional_tone", VStr "joyful_character_archetype")]
  ∧ random_state w = SystemSeeded
  ∧ random_state call.2 = Seeded 39
  ∧ call.2 ≠ w.
Proof.
  intros h w call.
  assert (random_state call.2 = Seeded 39) as Hrng by (vm_compute; reflexivity).
  split_and!.
  - eexists. vm_compute. reflexivity.
  - reflexivity.
  - vm_compute. reflexivity.
  - reflexivity.
  - exact Hrng.
  - intros Heq. rewrite Heq in Hrng. discriminate.
Qed.

(** ** Looking up an archetype *)

Lemma dict_get_None {V} (k : string) (d : list (string * V)) :
  Dict.get k d = None ↔ k ∉ Dict.keys d.
Proof.
  unfold Dict.keys. induction d as [|[k' v] d IH]; simpl.
  - split; [intros _; apply not_elem_of_nil | done].
  - rewrite not_elem_of_cons, <- IH.
    destruct (String.eqb_spec k' k) as [->|Hne].
    + split; [done | by intros [? _]].
    + split; [intros H; split; [congruence | done] | by intros [_ ?]].
Qed.

Lemma dict_get_Some_elem {V} (k : string) (v : V) (d : list (string * V)) :
  Dict.get k d = Some v → (k, v) ∈ d.
Proof.
  induction d as [|[k' v'] d IH]; simpl; [done|].
  destruct (String.eqb_spec k' k) as [->|_].
  - intros [= ->]. left.
  - intros H. right. by apply IH.
Qed.

Lemma dict_get_elem_NoDup {V} (k : string) (v : V) (d : list (string * V)) :
  NoDup (Dict.keys d) → (k, v) ∈ d → Dict.get k d = Some v.
Proof.
  unfold Dict.keys. induction d as [|[k' v'] d IH]; simpl.
  - intros _ H. by apply elem_of_nil in H.
  - intros [Hk' Hd]%NoDup_cons [[= -> ->]|Hin]%elem_of_cons.
    + by rewrite String.eqb_refl.
    + destruct (String.eqb_spec k' k) as [->|_]; [|by apply IH].
      exfalso. apply Hk'. apply list_elem_of_fmap. by exists (k, v).
Qed.

(** C8. Whenever the loader yields a catalogue, the rule lookup for a name
    that is not one of its keys returns, as an ordinary result, the dict
    with the single key [error]; nothing is raised. *)
Theorem unknown_archetype_is_a_result (w : process) (items : pydict)
    (emotional_tone : string) :
  (OlogLoader.get_intentionality_instances (OLOG_LOADER w)).1 = Ok (VDict items) →
  emotional_tone ∉ Dict.keys items →
  (get_archetype_rules emotional_tone w).1
  = Ok [("error", VStr ("Unknown archetype: " +:+ emotional_tone))].
Proof.
  intros Hcat Hname. apply dict_get_None in Hname.
  unfold get_archetype_rules, OlogLoader.get_archetype_rules.
  destruct (OlogLoader.get_intentionality_instances _) as [insts self].
  simpl in Hcat. subst insts. cbn [Dyn.get]. by rewrite Hname.
Qed.

Lemma unknown_archetype_is_a_result_witness :
  let w := Sample.server (PyHash.secret_of_seed 0) ∅ in
  (OlogLoader.get_intentionality_instances (OLOG_LOADER w)).1
  = Ok (VDict Sample.catalogue)
  ∧ ("nonexistent" ∉ Dict.keys Sample.catalogue)
  ∧ (get_archetype_rules "nonexistent" w).1
    = Ok [("error", VStr "Unknown archetype: nonexistent")].
Proof.
  intros w.
  assert ("nonexistent" ∉ Dict.keys Sample.catalogue) as Hname by compute_done.
  split; [reflexivity|]. split; [exact Hname|].
  exact (unknown_archetype_is_a_result w Sample.catalogue "nonexistent"
           eq_refl Hname).
Defined.

(** ** Loading the taxonomy *)

Lemma contains_instances_dict (td : pydict) :
  Dyn.contains "instances" (VDict td)
  = Ok (match Dict.get "instances" td with Some _ => true | None => false end).
Proof.
  cbn [Dyn.contains]. f_equal.
  destruct (Dict.get "instances" td) eqn:Hget.
  - apply bool_decide_eq_true. apply dec_stable. rewrite <- dict_get_None.
    congruence.
  - by apply bool_decide_eq_false, dict_get_None.
Qed.

(** Every dimension of the flattened taxonomy stems from an entry of the
    [types] section that declares its instance list, or was in the
    accumulator already. *)
Lemma flatten_origin (types : pydict) (acc tx : taxonomy) (name : string)
    (dim : dimension) :
  OlogLoader.flatten types acc = Ok tx →
  NoDup (Dict.keys types) →
  Dict.get name tx = Some dim →
  Dict.get name acc = Some dim
  ∨ ∃ td, Dict.get name types = Some (VDict td)
          ∧ Dict.get "instances" td = Some (VList (instances dim)).
Proof.
  revert acc. induction types as [|[n type_def] types IH]; intros acc Hflat Hnodup Hget.
  - left. by injection Hflat as <-.
  - apply NoDup_cons in Hnodup as [Hn Hnodup].
    assert (∀ acc',
      OlogLoader.flatten types acc' = Ok tx →
      (Dict.get name acc' = Some dim →
       Dict.get name acc = Some dim
       ∨ ∃ td, Dict.get name ((n, type_def) :: types) = Some (VDict td)
               ∧ Dict.get "instances" td = Some (VList (instances dim))) →
      Dict.get name acc = Some dim
      ∨ ∃ td, Dict.get name ((n, type_def) :: types) = Some (VDict td)
              ∧ Dict.get "instances" td = Some (VList (instances dim))) as Hstep.
    { intros acc' Hrest Hacc'.
      destruct (IH acc' Hrest Hnodup Hget) as [Hin|(td & Htd & Hinsts)]; [auto|].
      right. exists td. split; [|done]. simpl.
      destruct (String.eqb_spec n name) as [->|_]; [|done].
      exfalso. apply Hn. apply dict_get_Some_elem in Htd.
      apply list_elem_of_fmap. by exists (name, VDict td). }
    cbn [OlogLoader.flatten] in Hflat.
    apply rbind_ok_inv in Hflat as (has & Hhas & Hflat).
    destruct has; [|by apply (Hstep acc); auto].
    apply rbind_ok_inv in Hflat as (insts & Hinsts & Hflat).
    destruct type_def as [| | | | |td]; try done.
    destruct insts as [| | | |l|]; try (by apply (Hstep acc); auto).
    cbn [Dyn.get rbind] in Hflat.
    apply (Hstep _ Hflat). intros Hset.
    destruct (decide (name = n)) as [->|Hne].
    + rewrite dict_get_set_eq in Hset. injection Hset as <-.
      right. exists td. simpl. rewrite String.eqb_refl. split; [done|].
      unfold Dyn.getitem in Hinsts. by destruct (Dict.get "instances" td); simplify_eq.
    + left. by rewrite dict_get_set_ne in Hset.
Qed.

(** A [types] section all of whose entries are dicts is flattened without
    error, and the taxonomy holds each declared instance list as it is. *)
Lemma flatten_declared (types : pydict) (acc : taxonomy) :
  Forall (λ e, is_dict e.2) types →
  NoDup (Dict.keys types) →
  ∃ tx, OlogLoader.flatten types acc = Ok tx
        ∧ (∀ name l, (∃ type_def, Dict.get name types = Some type_def
                                  ∧ declares_instances type_def l) →
                     taxonomy_instances tx name = Ok l)
        ∧ (∀ name, name ∉ Dict.keys types → Dict.get name tx = Dict.get name acc).
Proof.
  revert acc. induction types as [|[n type_def] types IH]; intros acc Hdicts Hnodup.
  - exists acc. split; [done|]. split; [|done]. by intros name l (? & [=] & _).
  - apply Forall_cons in Hdicts as [[td Htd] Hdicts]. simpl in Htd. subst type_def.
    apply NoDup_cons in Hnodup as [Hn Hnodup].
    cbn [OlogLoader.flatten]. rewrite contains_instances_dict.
    assert (∀ acc',
      (∀ l, Dict.get "instances" td = Some (VList l) →
            ∃ dim, Dict.get n acc' = Some dim ∧ instances dim = l) →
      (∀ name, name ≠ n → Dict.get name acc' = Dict.get name acc) →
      ∃ tx, OlogLoader.flatten types acc' = Ok tx
        ∧ (∀ name l, (∃ type_def, Dict.get name ((n, VDict td) :: types) = Some type_def
                                  ∧ declares_instances type_def l) →
                     taxonomy_instances tx name = Ok l)
        ∧ (∀ name, name ∉ Dict.keys ((n, VDict td) :: types) →
                   Dict.get name tx = Dict.get name acc)) as Hstep.
    { intros acc' Hlist Hother.
      destruct (IH acc' Hdicts Hnodup) as (tx & Hflat & Hdecl & Hkeep).
      exists tx. split; [done|]. split.
      - intros name l (type_def & Hget & Hdecl'). simpl in Hget.
        destruct (String.eqb_spec n name) as [->|Hne].
        + injection Hget as <-. destruct Hdecl' as (td' & [= <-] & Hl).
          destruct (Hlist l Hl) as (dim & Hdim & <-).
          unfold taxonomy_instances. by rewrite (Hkeep name Hn), Hdim.
        + apply Hdecl. by exists type_def.
      - intros name [Hne Hname]%not_elem_of_cons.
        by rewrite (Hkeep name Hname), Hother. }
    destruct (Dict.get "instances" td) as [[| | | |l|]|] eqn:Hi;
      cbn [rbind Dyn.getitem Dyn.get]; rewrite ?Hi; cbn [rbind];
      try (by apply Hstep).
    apply Hstep.
    + intros ? [= <-]. eexists. by rewrite dict_get_set_eq.
    + intros name Hne. by apply dict_get_set_ne.
Qed.

(** C7, as amended. The loader validates no instance list.  For a taxonomy
    document of the expected shape (an [olog] dict with a [types] dict whose
    entries are dicts) and an intentionality document with an [olog] dict,
    the import succeeds, and the taxonomy holds the instance list of every
    declared dimension exactly as the document has it, be it empty or with
    repeated ids. *)
Theorem load_keeps_declared_instances (aesthetic intentionality : pyval)
    (types : pydict) (k : PyHash.secret) (h : gmap loc pydict) :
  (∃ olog, Dyn.getitem aesthetic "olog" = Ok olog
           ∧ Dyn.get olog "types" (VDict []) = Ok (VDict types)) →
  Forall (λ e, is_dict e.2) types →
  NoDup (Dict.keys types) →
  (∃ olog, Dyn.getitem intentionality "olog" = Ok olog ∧ is_dict olog) →
  ∃ w, import_server (Parsed aesthetic) (Parsed intentionality) k h = inr w
       ∧ ∀ name l,
           (∃ type_def, Dict.get name types = Some type_def
                        ∧ declares_instances type_def l) →
           taxonomy_instances (TAXONOMY w) name = Ok l.
Proof.
  intros (olog & Holog & Htypes) Hdicts Hnodup (olog' & Holog' & [d' ->]).
  destruct (flatten_declared types [] Hdicts Hnodup) as (tx & Hflat & Hdecl & _).
  unfold import_server, OlogLoader.get_taxonomy, OlogLoader.get_intentionality_instances.
  cbn [OlogLoader._load_ologs OlogLoader.read OlogLoader.taxonomy_cache
       OlogLoader.aesthetic_olog OlogLoader.intentionality_olog
       OlogLoader.intent_mapping_cache].
  rewrite Holog. cbn [rbind]. rewrite Htypes. cbn [rbind Dyn.items]. rewrite Hflat.
  cbn [OlogLoader.intentionality_olog OlogLoader.intent_mapping_cache].
  rewrite Holog'. cbn [rbind Dyn.get].
  eexists. split; [reflexivity|]. exact Hdecl.
Qed.

Lemma load_keeps_declared_instances_witness :
  ∃ w, import_server (Parsed (Sample.aesthetic_of Sample.degenerate_types))
         (Parsed Sample.intentionality) (PyHash.secret_of_seed 0) ∅ = inr w
       ∧ taxonomy_instances (TAXONOMY w) "HeadShape" = Ok []
       ∧ taxonomy_instances (TAXONOMY w) "ColorTriad"
         = Ok [VStr "soft_pink_lavender_mint"; VStr "soft_pink_lavender_mint"].
Proof.
  destruct (load_keeps_declared_instances
              (Sample.aesthetic_of Sample.degenerate_types) Sample.intentionality
              Sample.degenerate_types (PyHash.secret_of_seed 0) ∅)
    as (w & Hw & Hdecl).
  - by eexists.
  - unfold Sample.degenerate_types, Sample.dimension_doc.
    repeat (apply Forall_cons; split; [by eexists|]). apply Forall_nil_2.
  - compute_done.
  - eexists. split; [reflexivity | by eexists].
  - exists w. split; [exact Hw|]. split; apply Hdecl; eexists; (split; [reflexivity|]);
      by eexists.
Defined.

(** C7, as stated, fails: the document below declares a dimension with no
    instance and a dimension with a repeated id, and the import succeeds.
    The server then answers a request without intent; a request with an
    intent raises [IndexError] when the mapping reads the first head shape. *)
Lemma degenerate_taxonomy_loads :
  let h : gmap loc pydict := {[ 1%positive := [("mood", VStr "calm")] ]} in
  ∃ w, import_server (Parsed (Sample.aesthetic_of Sample.degenerate_types))
         (Parsed Sample.intentionality) (PyHash.secret_of_seed 0) h = inr w
       ∧ taxonomy_instances (TAXONOMY w) "HeadShape" = Ok []
       ∧ taxonomy_instances (TAXONOMY w) "ColorTriad"
         = Ok [VStr "soft_pink_lavender_mint"; VStr "soft_pink_lavender_mint"]
       ∧ (∃ spec, (_generate_sanrio_character_impl "happy character" None w).1 = Ok spec)
       ∧ (_generate_sanrio_character_impl "happy character" (Some 1%positive) w).1
         = Raise IndexError.
Proof.
  intros h. eexists. split; [reflexivity|].
  split; [reflexivity|]. split; [reflexivity|].
  split; [eexists; vm_compute; reflexivity | vm_compute; reflexivity].
Qed.

(** ** Closure of the design choices under the taxonomy *)

(** The result of the mapping, read off a successful run. *)
Lemma map_intent_inv (w : process) (design_intent choices : pydict) :
  _map_intent_to_design_choices w design_intent = Ok choices →
  ∃ head0 heads weight_feeling primary_shape size_implication color_feeling tone,
    taxonomy_instances (TAXONOMY w) "HeadShape" = Ok (head0 :: heads)
    ∧ intent_text design_intent "weight_feeling" = Ok weight_feeling
    ∧ intent_text design_intent "primary_shape" = Ok primary_shape
    ∧ intent_text design_intent "size_implication" = Ok size_implication
    ∧ intent_text design_intent "color_feeling" = Ok color_feeling
    ∧ intent_text design_intent "inferred_emotional_tone" = Ok tone
    ∧ choices =
        [ ("head_shape",
            match head_shape_rule weight_feeling primary_shape with
            | Some id => VStr id
            | None => head0
            end);
          ("body_proportion",
            VStr (body_proportion_rule weight_feeling size_implication));
          ("facial_style",
            VStr (default "dot_eyes_curved_smile" (Dict.get tone facial_mapping)));
          ("color_triad",
            VStr (default "soft_pink_lavender_mint"
                    (Dict.get color_feeling color_mapping)));
          ("size_category", VStr (size_category_rule size_implication)) ].
Proof.
  unfold _map_intent_to_design_choices. intros H.
  apply rbind_ok_inv in H as (heads & Hheads & H).
  do 4 apply rbind_ok_inv in H as (? & _ & H).
  apply rbind_ok_inv in H as (head0 & Hhead0 & H).
  do 8 apply rbind_ok_inv in H as (? & _ & H).
  apply rbind_ok_inv in H as (weight_feeling & Hwf & H).
  apply rbind_ok_inv in H as (primary_shape & Hps & H).
  apply rbind_ok_inv in H as (size_implication & Hsi & H).
  apply rbind_ok_inv in H as (color_feeling & Hcf & H).
  apply rbind_ok_inv in H as (tone & Htone & H).
  destruct heads as [|h heads]; [done|]. injection Hhead0 as ->.
  exists head0, heads, weight_feeling, primary_shape, size_implication,
    color_feeling, tone.
  split_and!; try done.
  injection H as <-. by destruct (head_shape_rule _ _).
Qed.

Lemma head_shape_rule_literal (weight_feeling primary_shape id : string) :
  head_shape_rule weight_feeling primary_shape = Some id →
  ("HeadShape", id) ∈ rule_literals.
Proof.
  unfold head_shape_rule. repeat case_match; intros [= <-]; compute_done.
Qed.

Lemma body_proportion_rule_literal (weight_feeling size_implication : string) :
  ("BodyProportion", body_proportion_rule weight_feeling size_implication)
  ∈ rule_literals.
Proof. unfold body_proportion_rule. repeat case_match; compute_done. Qed.

Lemma size_category_rule_literal (size_implication : string) :
  ("SizeCategory", size_category_rule size_implication) ∈ rule_literals.
Proof. unfold size_category_rule. repeat case_match; compute_done. Qed.

Lemma color_mapping_literal (color_feeling : string) :
  ("ColorTriad", default "soft_pink_lavender_mint"
                   (Dict.get color_feeling color_mapping)) ∈ rule_literals.
Proof.
  unfold color_mapping. cbn [Dict.get]. repeat case_match; compute_done.
Qed.

Lemma facial_mapping_literal (tone : string) :
  ("FacialStyle", default "dot_eyes_curved_smile" (Dict.get tone facial_mapping))
  ∈ rule_literals.
Proof.
  unfold facial_mapping. cbn [Dict.get]. repeat case_match; compute_done.
Qed.

Lemma closed_under_choices (tx : taxonomy) (head body face color size : pyval) :
  (∀ dim v, (dim, v) ∈ [ ("HeadShape", head); ("BodyProportion", body);
                         ("FacialStyle", face); ("ColorTriad", color);
                         ("SizeCategory", size) ] →
            ∃ insts, taxonomy_instances tx dim = Ok insts ∧ v ∈ insts) →
  closed_under tx [ ("head_shape", head); ("body_proportion", body);
                    ("facial_style", face); ("color_triad", color);
                    ("size_category", size) ].
Proof.
  intros H key dim Hkey.
  destruct (H "HeadShape" head) as (i1 & ? & ?); [by left|].
  destruct (H "BodyProportion" body) as (i2 & ? & ?); [by right; left|].
  destruct (H "FacialStyle" face) as (i3 & ? & ?); [by do 2 right; left|].
  destruct (H "ColorTriad" color) as (i4 & ? & ?); [by do 3 right; left|].
  destruct (H "SizeCategory" size) as (i5 & ? & ?); [by do 4 right; left|].
  unfold choice_keys in Hkey.
  repeat (apply elem_of_cons in Hkey as [[= -> ->]|Hkey]; [by eexists _, _|]).
  by apply elem_of_nil in Hkey.
Qed.

Lemma map_intent_closed (w : process) (design_intent choices : pydict) :
  declares_rule_literals (TAXONOMY w) →
  _map_intent_to_design_choices w design_intent = Ok choices →
  closed_under (TAXONOMY w) choices.
Proof.
  intros Hlit Hmap.
  apply map_intent_inv in Hmap
    as (head0 & heads & wf & ps & si & cf & tone & Hheads & _ & _ & _ & _ & _ & ->).
  apply closed_under_choices. intros dim v Hin.
  repeat (apply elem_of_cons in Hin as [[= -> ->]|Hin]).
  - destruct (head_shape_rule wf ps) as [id|] eqn:Hrule.
    + by apply Hlit, (head_shape_rule_literal wf ps).
    + eexists. split; [exact Hheads | left].
  - apply Hlit, body_proportion_rule_literal.
  - apply Hlit, facial_mapping_literal.
  - apply Hlit, color_mapping_literal.
  - apply Hlit, size_category_rule_literal.
  - by apply elem_of_nil in Hin.
Qed.

Lemma archetype_defaults_closed (tx : taxonomy) :
  declares_rule_literals tx → closed_under tx archetype_defaults.
Proof.
  intros Hlit. apply closed_under_choices. intros dim v Hin.
  repeat (apply elem_of_cons in Hin as [[= -> ->]|Hin];
          [apply Hlit; compute_done|]).
  by apply elem_of_nil in Hin.
Qed.

(** C2, as amended. When the loaded taxonomy lists, under the respective
    dimension, every instance id that the rules and defaults of the server
    name, each of the five values of a resolved design choice -- from the
    mapping of an intent, and in the specification a call returns -- is a
    member of its dimension's instance list. *)
Theorem design_choices_closed (w : process) :
  declares_rule_literals (TAXONOMY w) →
  (∀ design_intent choices,
     _map_intent_to_design_choices w design_intent = Ok choices →
     closed_under (TAXONOMY w) choices)
  ∧ (∀ user_prompt design_intent spec w',
       _generate_sanrio_character_impl user_prompt design_intent w = (Ok spec, w') →
       closed_under (TAXONOMY w) spec).
Proof.
  intros Hlit. split; [intros d choices; by apply map_intent_closed|].
  intros user_prompt design_intent spec w' Hcall.
  apply impl_ok_inv in Hcall
    as (tone & archetype & choices & rationale & fw & _ & Hres & _ & Hspec).
  apply design_specification_fields in Hspec
    as (_ & _ & _ & _ & Hhead & Hbody & Hface & Hcolor & Hsize).
  assert (closed_under (TAXONOMY w) choices) as Hclosed.
  { inversion Hres as [|l Hl|l d ? ? Hl Hne d' w1 Hmap Hrat]; subst.
    - by apply archetype_defaults_closed.
    - by apply archetype_defaults_closed.
    - by apply (map_intent_closed w1 d'). }
  intros key dim Hkey. destruct (Hclosed key dim Hkey) as (v & insts & Hv & Hinsts).
  exists v, insts. split; [|done]. unfold choice_keys in Hkey.
  repeat (apply elem_of_cons in Hkey as [[= -> ->]|Hkey]; [congruence|]).
  by apply elem_of_nil in Hkey.
Qed.

Lemma sample_declares_rule_literals : declares_rule_literals Sample.taxonomy_table.
Proof.
  intros dim id Hin. unfold rule_literals in Hin.
  repeat (apply elem_of_cons in Hin as [[= -> ->]|Hin];
          [eexists; split; [reflexivity|];
           apply list_elem_of_fmap_2; compute_done|]).
  by apply elem_of_nil in Hin.
Qed.

Lemma design_choices_closed_witness :
  let h : gmap loc pydict :=
    {[ 1%positive := [("weight_feeling", VStr "Drooping"); ("mood", VStr "calm")] ]} in
  let w := Sample.server (PyHash.secret_of_seed 0) h in
  declares_rule_literals (TAXONOMY w)
  ∧ ∃ spec, (_generate_sanrio_character_impl "a sad day" (Some 1%positive) w).1 = Ok spec
            ∧ Dict.get "head_shape" spec = Some (VStr "elongated_teardrop")
            ∧ closed_under (TAXONOMY w) spec.
Proof.
  intros h w. split; [exact sample_declares_rule_literals|].
  destruct (_generate_sanrio_character_impl "a sad day" (Some 1%positive) w)
    as [outcome w'] eqn:Hcall.
  assert (∃ spec, outcome = Ok spec
                  ∧ Dict.get "head_shape" spec = Some (VStr "elongated_teardrop"))
    as (spec & -> & Hhead).
  { vm_compute in Hcall. injection Hcall as <- _. by eexists. }
  exists spec. split; [done|]. split; [done|].
  exact (proj2 (design_choices_closed w sample_declares_rule_literals)
           _ _ _ _ Hcall).
Defined.

(** C2, as stated, fails: a taxonomy whose head shapes are the single id
    [large_round_orb] loads, and for an intent with a drooping weight the
    tool returns the head shape [elongated_teardrop], which that taxonomy
    does not list. *)
Lemma choice_outside_taxonomy :
  let h : gmap loc pydict :=
    {[ 1%positive := [("weight_feeling", VStr "drooping")] ]} in
  ∃ w spec,
    import_server (Parsed (Sample.aesthetic_of Sample.narrow_types))
      (Parsed Sample.intentionality) (PyHash.secret_of_seed 0) h = inr w
    ∧ taxonomy_instances (TAXONOMY w) "HeadShape" = Ok [VStr "large_round_orb"]
    ∧ (_generate_sanrio_character_impl "a sad day" (Some 1%positive) w).1 = Ok spec
    ∧ Dict.get "head_shape" spec = Some (VStr "elongated_teardrop")
    ∧ (VStr "elongated_teardrop" ∉ [VStr "large_round_orb"])
    ∧ ¬ closed_under (TAXONOMY w) spec.
Proof.
  intros h. eexists _, _. split; [reflexivity|]. split; [reflexivity|].
  split; [vm_compute; reflexivity|]. split; [reflexivity|].
  assert (VStr "elongated_teardrop" ∉ [VStr "large_round_orb"]) as Hnot.
  { intros Hin. apply list_elem_of_singleton in Hin. discriminate. }
  split; [exact Hnot|].
  intros Hclosed. destruct (Hclosed "head_shape" "HeadShape") as (v & insts & Hv & Hi & Hin).
  { left. }
  injection Hv as <-. injection Hi as <-. by apply Hnot.
Qed.

(** ** A valid repository *)

Lemma intent_text_ok (design_intent : pydict) (k : string) :
  text_or_absent design_intent k →
  intent_text design_intent k = Ok (Py.lower (field_text design_intent k)).
Proof.
  unfold text_or_absent, intent_text, field_text. intros H.
  destruct (Dict.get k design_intent) as [v|]; [|done].
  by destruct (H v eq_refl) as [s ->].
Qed.

(** The path [aesthetic_olog['olog']['types'][name]['instances']] leads to
    the instance list the taxonomy has for [name]. *)
Lemma document_instances (w : process) (name : string) (l : list pyval) :
  taxonomy_loaded w →
  taxonomy_instances (TAXONOMY w) name = Ok l →
  (let? olog := Dyn.getitem (OlogLoader.aesthetic_olog (OLOG_LOADER w)) "olog" in
   let? types := Dyn.getitem olog "types" in
   let? entry := Dyn.getitem types name in
   Dyn.getitem entry "instances") = Ok (VList l).
Proof.
  intros (doc & olog & types & -> & Holog & Htypes & Hnodup & Hflat) Hl.
  unfold taxonomy_instances in Hl.
  destruct (Dict.get name (TAXONOMY w)) as [dim|] eqn:Hdim; [|done].
  injection Hl as <-.
  destruct (flatten_origin _ _ _ _ _ Hflat Hnodup Hdim) as [|(td & Htd & Hinsts)];
    [done|].
  cbn [Dyn.getitem rbind]. rewrite Holog. cbn [Dyn.getitem rbind].
  rewrite Htypes. cbn [Dyn.getitem rbind]. rewrite Htd. cbn [Dyn.getitem rbind].
  by rewrite Hinsts.
Qed.

(** Over a valid taxonomy, the mapping of an intent whose text fields are
    strings or absent returns, with the value below. *)
Lemma map_intent_ok (w : process) (design_intent : pydict) :
  valid_taxonomy w →
  Forall (text_or_absent design_intent)
    (intent_fields ++ ["inferred_emotional_tone"]) →
  ∃ head0 heads,
    taxonomy_instances (TAXONOMY w) "HeadShape" = Ok (VStr <$> (head0 :: heads))
    ∧ let weight_feeling := Py.lower (field_text design_intent "weight_feeling") in
      let primary_shape := Py.lower (field_text design_intent "primary_shape") in
      let size_implication := Py.lower (field_text design_intent "size_implication") in
      let color_feeling := Py.lower (field_text design_intent "color_feeling") in
      let tone := Py.lower (field_text design_intent "inferred_emotional_tone") in
      _map_intent_to_design_choices w design_intent
      = Ok [ ("head_shape",
               VStr (default head0 (head_shape_rule weight_feeling primary_shape)));
             ("body_proportion",
               VStr (body_proportion_rule weight_feeling size_implication));
             ("facial_style",
               VStr (default "dot_eyes_curved_smile" (Dict.get tone facial_mapping)));
             ("color_triad",
               VStr (default "soft_pink_lavender_mint"
                       (Dict.get color_feeling color_mapping)));
             ("size_category", VStr (size_category_rule size_implication)) ].
Proof.
  intros [Hloaded Hdims] Hfields.
  unfold dimension_names in Hdims.
  apply Forall_cons in Hdims as [(head0 & heads & Hhead) Hdims].
  apply Forall_cons in Hdims as [(body0 & bodies & Hbody) Hdims].
  apply Forall_cons in Hdims as [(color0 & colors & Hcolor) Hdims].
  apply Forall_cons in Hdims as [(size0 & sizes & Hsize) Hdims].
  apply Forall_cons in Hdims as [(face0 & faces & Hface) _].
  pose proof (document_instances w "ColorTriad" _ Hloaded Hcolor) as Hdoc.
  unfold intent_fields in Hfields. cbn [app] in Hfields.
  apply Forall_cons in Hfields as [Hwf Hfields].
  apply Forall_cons in Hfields as [Hps Hfields].
  apply Forall_cons in Hfields as [Hsi Hfields].
  apply Forall_cons in Hfields as [Hcf Hfields].
  apply Forall_cons in Hfields as [Htone _].
  exists head0, heads. split; [done|]. intros wf ps si cf tone.
  unfold _map_intent_to_design_choices.
  rewrite Hhead, Hbody, Hcolor, Hsize, Hface. cbn [rbind].
  rewrite !fmap_cons. cbn [Dyn.getitem0 rbind].
  destruct (Dyn.getitem (OlogLoader.aesthetic_olog _) "olog") as [olog|]; [|done].
  cbn [rbind] in Hdoc |- *.
  destruct (Dyn.getitem olog "types") as [types|]; [|done].
  cbn [rbind] in Hdoc |- *.
  destruct (Dyn.getitem types "ColorTriad") as [triad|]; [|done].
  cbn [rbind] in Hdoc |- *. rewrite Hdoc. rewrite fmap_cons. cbn [Dyn.getitem0 rbind].
  rewrite !intent_text_ok by done. cbn [rbind].
  fold wf ps si cf tone.
  by destruct (head_shape_rule wf ps).
Qed.

(** ** Resolver precedence on a concrete intent *)

(** C9. Over a valid taxonomy, the intent with [weight_feeling] "drooping,
    weighted" and [primary_shape] "drooping or curved" resolves to the head
    shape [elongated_teardrop] -- the drooping rule comes before the curved
    rule, which the text also satisfies -- and to the body proportion
    [body_focused_30_70].  A call of the tool on such a record reports the
    same two values. *)
Theorem drooping_weighted_intent (w : process) :
  let intent : pydict :=
    [ ("weight_feeling", VStr "drooping, weighted");
      ("primary_shape", VStr "drooping or curved") ] in
  valid_taxonomy w →
  (∃ choices,
     _map_intent_to_design_choices w intent = Ok choices
     ∧ Dict.get "head_shape" choices = Some (VStr "elongated_teardrop")
     ∧ Dict.get "body_proportion" choices = Some (VStr "body_focused_30_70"))
  ∧ Py.contains "curved" "drooping or curved" = true
  ∧ (∀ user_prompt l spec w',
       heap w !! l = Some intent →
       _generate_sanrio_character_impl user_prompt (Some l) w = (Ok spec, w') →
       Dict.get "head_shape" spec = Some (VStr "elongated_teardrop")
       ∧ Dict.get "body_proportion" spec = Some (VStr "body_focused_30_70")).
Proof.
  intros intent Hvalid. split_and!.
  - destruct (map_intent_ok w intent Hvalid) as (head0 & heads & _ & Hmap).
    { repeat (apply Forall_cons; split;
              [intros v Hv; vm_compute in Hv; simplify_eq; by eexists|]).
      apply Forall_nil_2. }
    cbv zeta in Hmap. rewrite Hmap. eexists. split; [reflexivity|].
    split; reflexivity.
  - reflexivity.
  - intros user_prompt l spec w' Hl Hcall.
    apply impl_ok_inv in Hcall
      as (tone & archetype & choices & rationale & fw & _ & Hres & _ & Hspec).
    apply design_specification_fields in Hspec
      as (_ & _ & _ & _ & Hhead & Hbody & _).
    rewrite Hhead, Hbody.
    inversion Hres as [|? Hl'|? d ? ? Hl' Hne d' w1 Hmap Hrat]; subst;
      cbn in Hl'; rewrite Hl in Hl'; [discriminate|].
    + injection Hl' as <-.
      apply map_intent_inv in Hmap
        as (head0 & heads & wf & ps & si & cf & t & _ & Hwf & Hps & Hsi & _ & _ & ->).
      vm_compute in Hwf, Hps, Hsi. by simplify_eq.
Qed.

Lemma sample_taxonomy_valid (k : PyHash.secret) (h : gmap loc pydict) :
  valid_taxonomy (Sample.server k h).
Proof.
  split.
  - eexists _, _, Sample.types. split_and!; [reflexivity..| |reflexivity].
    compute_done.
  - unfold dimension_names.
    repeat (apply Forall_cons; split; [by eexists _, _|]). apply Forall_nil_2.
Qed.

Lemma drooping_weighted_intent_witness :
  let w := Sample.server (PyHash.secret_of_seed 0) ∅ in
  valid_taxonomy w
  ∧ ∃ choices,
      _map_intent_to_design_choices w
        [ ("weight_feeling", VStr "drooping, weighted");
          ("primary_shape", VStr "drooping or curved") ] = Ok choices
      ∧ Dict.get "head_shape" choices = Some (VStr "elongated_teardrop")
      ∧ Dict.get "body_proportion" choices = Some (VStr "body_focused_30_70").
Proof.
  intros w. split; [apply sample_taxonomy_valid|].
  exact (proj1 (drooping_weighted_intent w (sample_taxonomy_valid _ _))).
Defined.

(** ** Totality of the design tool *)

Lemma is_space_lower_char (c : ascii) :
  Py.is_space (Py.lower_char c) = Py.is_space c.
Proof. by destruct c as [[] [] [] [] [] [] [] []]. Qed.

Lemma has_token_lower (s : string) : has_token s → has_token (Py.lower s).
Proof.
  intros (c & Hin & Hc). exists (Py.lower_char c).
  split; [|by rewrite is_space_lower_char].
  induction s as [|c' s IH]; simpl in *; [by apply elem_of_nil in Hin|].
  apply elem_of_cons in Hin as [->|Hin]; [left | right; by apply IH].
Qed.

Lemma split_go_pending (cur s : string) : Py.split_go (Some cur) s ≠ [].
Proof.
  revert cur. induction s as [|c s IH]; intros cur; simpl; [done|].
  destruct (Py.is_space c); [done | apply IH].
Qed.

Lemma split_has_token (s : string) : has_token s → Py.split s ≠ [].
Proof.
  unfold Py.split. intros (c & Hin & Hc).
  induction s as [|c' s IH]; simpl in *; [by apply elem_of_nil in Hin|].
  destruct (Py.is_space c') eqn:Hc'; [|apply split_go_pending].
  apply elem_of_cons in Hin as [->|Hin]; [congruence | by apply IH].
Qed.

Lemma first_word_ok (user_prompt : string) :
  has_token user_prompt →
  ∃ first_word, first_word_of (Py.lower user_prompt) = Ok first_word.
Proof.
  intros Htoken%has_token_lower%split_has_token. unfold first_word_of.
  destruct (Py.split _); [done | by eexists].
Qed.

Lemma match_archetype_ok (text : string) (items : pydict) :
  valid_catalogue items →
  ∃ found, match_archetype text items = Ok found.
Proof.
  induction items as [|[n a] items IH]; intros Hvalid; [by eexists|].
  apply Forall_cons in Hvalid as [[_ [kws Hkws]] Hvalid].
  rewrite (match_archetype_step _ _ _ kws) by done.
  destruct (existsb _ kws); [by eexists | by apply IH].
Qed.

Lemma infer_archetype_ok (items : pydict) (text : string) :
  valid_catalogue items →
  ∃ tone archetype,
    infer_archetype (VDict items) text = Ok (tone, archetype) ∧ is_dict archetype.
Proof.
  intros Hvalid. unfold infer_archetype. cbn [Dyn.items Dyn.get rbind].
  destruct (match_archetype_ok text items Hvalid) as [found Hfound].
  rewrite Hfound. cbn [rbind].
  assert (is_dict (default (VDict []) (Dict.get "joyful_character_archetype" items)))
    as Hjoyful.
  { destruct (Dict.get _ items) as [a|] eqn:Hget; [|by eexists].
    apply dict_get_Some_elem in Hget.
    destruct (proj1 (Forall_forall _ _) Hvalid _ Hget) as [_ (kws & d & Hd & _)].
    by exists d. }
  destruct found as [[tone archetype]|]; [|by eexists _, _].
  destruct (Dyn.truthy (VStr tone)); [|by eexists _, _].
  exists tone, archetype. split; [done|].
  by apply match_archetype_elem in Hfound as [_ ?].
Qed.


Lemma design_specification_ok (name tone : string) (seed : Z) (user_prompt : string)
    (choices : pydict) (archetype : pyval) (rationale : string) :
  string_choices choices →
  is_dict archetype →
  ∃ spec, design_specification name tone seed user_prompt choices archetype rationale
          = Ok spec.
Proof.
  unfold string_choices, choice_keys. cbn [fmap list_fmap fst].
  intros Hchoices [d ->].
  apply Forall_cons in Hchoices as [[head Hhead] Hchoices].
  apply Forall_cons in Hchoices as [[body Hbody] Hchoices].
  apply Forall_cons in Hchoices as [[face Hface] Hchoices].
  apply Forall_cons in Hchoices as [[color Hcolor] Hchoices].
  apply Forall_cons in Hchoices as [[size Hsize] _].
  unfold design_specification, spaced, item, Dyn.getitem.
  rewrite Hhead, Hbody, Hface, Hcolor, Hsize. by eexists.
Qed.


Lemma string_choices_defaults : string_choices archetype_defaults.
Proof.
  unfold string_choices, choice_keys. cbn [fmap list_fmap fst].
  repeat (apply Forall_cons; split; [by eexists|]). apply Forall_nil_2.
Qed.





(** A prompt without a token has no first word to name the character
    after: the call raises [IndexError]. *)
Example blank_prompt_raises :
  let w := Sample.server (PyHash.secret_of_seed 0) ∅ in
  (_generate_sanrio_character_impl "" None w).1 = Raise IndexError
  ∧ (_generate_sanrio_character_impl "   " None w).1 = Raise IndexError.
Proof. split; vm_compute; reflexivity. Qed.

(** ** Fallbacks for an empty intent *)

(** An empty intent record is falsy, so the tool does not map it: it takes
    the defaults of the branch without intent. *)
Lemma empty_intent_uses_defaults (user_prompt : string) (l : loc)
    (w w' : process) (spec : pydict) :
  heap w !! l = Some [] →
  _generate_sanrio_character_impl user_prompt (Some l) w = (Ok spec, w') →
  Forall (λ key, Dict.get key spec = Dict.get key archetype_defaults) (choice_keys.*1).
Proof.
  intros Hl Hcall.
  apply impl_ok_inv in Hcall
    as (tone & archetype & choices & rationale & fw & _ & Hres & _ & Hspec).
  apply design_specification_fields in Hspec
    as (_ & _ & _ & _ & Hhead & Hbody & Hface & Hcolor & Hsize).
  inversion Hres as [|? Hl'|? d ? ? Hl' Hne d' w1 Hmap Hrat]; subst;
    cbn in Hl'; rewrite Hl in Hl'; [|by injection Hl' as <-].
  unfold choice_keys. cbn [fmap list_fmap fst].
  repeat (apply Forall_cons; split; [done|]). apply Forall_nil_2.
Qed.

(** C6: the code at the empty intent.  The tool returns the size category
    [small_plush_toy] for the record [{}], while the mapping applied to the
    same record, and the tool on a record that only has a [mood], give
    [medium_standard]. *)
Theorem empty_intent_size_category :
  let h : gmap loc pydict :=
    {[ 1%positive := []; 2%positive := [("mood", VStr "calm")] ]} in
  let w := Sample.server (PyHash.secret_of_seed 0) h in
  (∃ spec, (_generate_sanrio_character_impl "happy character" (Some 1%positive) w).1
           = Ok spec
           ∧ Dict.get "size_category" spec = Some (VStr "small_plush_toy")
           ∧ Dict.get "head_shape" spec = Some (VStr "large_round_orb")
           ∧ Dict.get "body_proportion" spec = Some (VStr "balanced_cute_50_50")
           ∧ Dict.get "facial_style" spec = Some (VStr "dot_eyes_curved_smile")
           ∧ Dict.get "color_triad" spec = Some (VStr "soft_pink_lavender_mint"))
  ∧ (∃ choices, _map_intent_to_design_choices w [] = Ok choices
                ∧ Dict.get "size_category" choices = Some (VStr "medium_standard"))
  ∧ (∃ spec, (_generate_sanrio_character_impl "happy character" (Some 2%positive) w).1
             = Ok spec
             ∧ Dict.get "size_category" spec = Some (VStr "medium_standard")).
Proof.
  intros h w. split_and!.
  - eexists. split; [vm_compute; reflexivity|]. by split_and!.
  - eexists. split; [vm_compute; reflexivity | reflexivity].
  - eexists. split; [vm_compute; reflexivity | reflexivity].
Qed.

(** ** The seed *)

Lemma derive_seed_range (k : PyHash.secret) (user_prompt : string) :
  0 ≤ derive_seed k user_prompt < 100.
Proof. unfold derive_seed. apply Z.mod_pos_bound. lia. Qed.

(** C3: the seed lies in [0, 100) and is a function of the prompt and of
    the hash secret of the process; the same prompt gets different seeds in
    processes started with [PYTHONHASHSEED] 0, 1 and 2. *)
Theorem seed_depends_on_hash_secret :
  (∀ k user_prompt, 0 ≤ derive_seed k user_prompt < 100)
  ∧ derive_seed (PyHash.secret_of_seed 0) "procrastination" = 51
  ∧ derive_seed (PyHash.secret_of_seed 1) "procrastination" = 21
  ∧ derive_seed (PyHash.secret_of_seed 2) "procrastination" = 27.
Proof.
  split; [apply derive_seed_range|]. split_and!; vm_compute; reflexivity.
Qed.

(** * Further properties of the loader *)

(** X1. Both accessors of the loader are idempotent: once one has returned a
    table, calling it again on the loader it left returns the same table and
    leaves the loader as it is. *)
Theorem loader_accessors_idempotent (self : OlogLoader.t) :
  (∀ tx self',
     OlogLoader.get_taxonomy self = (Ok tx, self') →
     OlogLoader.get_taxonomy self' = (Ok tx, self'))
  ∧ (∀ insts self',
       OlogLoader.get_intentionality_instances self = (Ok insts, self') →
       OlogLoader.get_intentionality_instances self' = (Ok insts, self')).
Proof.
  split.
  - intros tx self'. unfold OlogLoader.get_taxonomy.
    destruct (OlogLoader.taxonomy_cache self) as [cached|] eqn:Hcache.
    + intros [= <- <-]. by rewrite Hcache.
    + destruct (let? olog := _ in _) as [built|]; [|done].
      by intros [= <- <-].
  - intros insts self'. unfold OlogLoader.get_intentionality_instances.
    destruct (OlogLoader.intent_mapping_cache self) eqn:Hcache;
      try (intros [= <- <-]; by rewrite Hcache).
    destruct (let? olog := _ in _) as [fetched|] eqn:Hfetch; [|done].
    intros [= <- <-]. cbn [OlogLoader.intent_mapping_cache OlogLoader.intentionality_olog].
    destruct fetched; try done. by rewrite Hfetch.
Qed.

Lemma loader_accessors_idempotent_witness :
  let fresh := OlogLoader.Loader Sample.aesthetic Sample.intentionality None VNone in
  ∃ tx self',
    OlogLoader.get_taxonomy fresh = (Ok tx, self')
    ∧ self' ≠ fresh
    ∧ OlogLoader.get_taxonomy self' = (Ok tx, self').
Proof.
  intros fresh. eexists _, _. split; [reflexivity|]. split; [done|].
  exact (proj1 (loader_accessors_idempotent fresh) _ _ eq_refl).
Defined.

(** X2. A fresh loader whose aesthetic document has an [olog] dict with a
    [types] dict of dict entries builds a taxonomy with exactly the types
    that declare an instance list: an entry without [instances], or whose
    [instances] is not a list, is left out. *)
Theorem taxonomy_has_the_declaring_types (self : OlogLoader.t) (types : pydict) :
  OlogLoader.taxonomy_cache self = None →
  (∃ olog, Dyn.getitem (OlogLoader.aesthetic_olog self) "olog" = Ok olog
           ∧ Dyn.get olog "types" (VDict []) = Ok (VDict types)) →
  Forall (λ e, is_dict e.2) types →
  NoDup (Dict.keys types) →
  ∃ tx self',
    OlogLoader.get_taxonomy self = (Ok tx, self')
    ∧ ∀ name,
        is_Some (Dict.get name tx)
        ↔ ∃ type_def l, Dict.get name types = Some type_def
                        ∧ declares_instances type_def l.
Proof.
  intros Hcache (olog & Holog & Htypes) Hdicts Hnodup.
  destruct (flatten_declared types [] Hdicts Hnodup) as (tx & Hflat & Hdecl & _).
  unfold OlogLoader.get_taxonomy. rewrite Hcache, Holog. cbn [rbind].
  rewrite Htypes. cbn [rbind Dyn.items]. rewrite Hflat.
  eexists _, _. split; [reflexivity|]. intros name. split.
  - intros [dim Hdim].
    destruct (flatten_origin _ _ _ _ _ Hflat Hnodup Hdim) as [|(td & Htd & Hl)];
      [done|].
    exists (VDict td), (instances dim). split; [done | by exists td].
  - intros (type_def & l & Hget & Hl).
    specialize (Hdecl name l (ex_intro _ type_def (conj Hget Hl))).
    unfold taxonomy_instances in Hdecl.
    by destruct (Dict.get name tx).
Qed.

Lemma taxonomy_has_the_declaring_types_witness :
  let fresh := OlogLoader.Loader Sample.aesthetic Sample.intentionality None VNone in
  ∃ tx self',
    OlogLoader.get_taxonomy fresh = (Ok tx, self')
    ∧ is_Some (Dict.get "HeadShape" tx)
    ∧ Dict.get "Character" Sample.types
      = Some (VDict [ ("description", VStr "a designed character") ])
    ∧ ¬ is_Some (Dict.get "Character" tx).
Proof.
  intros fresh.
  destruct (taxonomy_has_the_declaring_types fresh Sample.types)
    as (tx & self' & Hget & Hiff).
  - reflexivity.
  - by eexists.
  - unfold Sample.types, Sample.dimension_doc.
    repeat (apply Forall_cons; split; [by eexists|]). apply Forall_nil_2.
  - compute_done.
  - exists tx, self'. split; [exact Hget|]. split; [|split; [reflexivity|]].
    + apply Hiff. eexists _, _. split; [reflexivity|]. by eexists.
    + intros (type_def & l & Hdef & (td & -> & Hl))%Hiff.
      vm_compute in Hdef. injection Hdef as <-. vm_compute in Hl. discriminate.
Defined.

Lemma import_server_inv (aesthetic intentionality : source) (k : PyHash.secret)
    (h : gmap loc pydict) (w : process) :
  import_server aesthetic intentionality k h = inr w →
  ∃ a i loader1,
    aesthetic = Parsed a ∧ intentionality = Parsed i
    ∧ OlogLoader.get_taxonomy (OlogLoader.Loader a i None VNone)
      = (Ok (TAXONOMY w), loader1)
    ∧ OlogLoader.get_intentionality_instances loader1
      = (Ok (ARCHETYPES w), OLOG_LOADER w)
    ∧ random_state w = SystemSeeded ∧ heap w = h ∧ hash_secret w = k.
Proof.
  unfold import_server, OlogLoader._load_ologs.
  destruct aesthetic as [| |a]; try done. destruct intentionality as [| |i]; try done.
  cbn [OlogLoader.read].
  destruct (OlogLoader.get_taxonomy _) as [[tx|] loader1] eqn:Htx; [|done].
  destruct (OlogLoader.get_intentionality_instances loader1)
    as [[archetypes|] loader2] eqn:Hinsts; [|done].
  intros [= <-]. exists a, i, loader1. by split_and!.
Qed.

Lemma get_taxonomy_loader (self self' : OlogLoader.t) (tx : taxonomy) :
  OlogLoader.get_taxonomy self = (Ok tx, self') →
  OlogLoader.taxonomy_cache self' = Some tx
  ∧ OlogLoader.aesthetic_olog self' = OlogLoader.aesthetic_olog self
  ∧ (OlogLoader.taxonomy_cache self = None →
     ∃ d, Dyn.getitem (OlogLoader.aesthetic_olog self) "olog" = Ok (VDict d)).
Proof.
  unfold OlogLoader.get_taxonomy.
  destruct (OlogLoader.taxonomy_cache self) as [cached|] eqn:Hcache.
  - by intros [= <- <-].
  - destruct (Dyn.getitem _ "olog") as [olog|]; [|done]. cbn [rbind].
    destruct olog as [| | | | |d]; try done.
    destruct (let? types_dict := _ in _) as [built|]; [|done].
    intros [= <- <-]. split_and!; [done..|]. by exists d.
Qed.

Lemma get_instances_loader (self self' : OlogLoader.t) (insts : pyval) :
  OlogLoader.get_intentionality_instances self = (Ok insts, self') →
  OlogLoader.taxonomy_cache self' = OlogLoader.taxonomy_cache self
  ∧ OlogLoader.aesthetic_olog self' = OlogLoader.aesthetic_olog self.
Proof.
  unfold OlogLoader.get_intentionality_instances.
  destruct (OlogLoader.intent_mapping_cache self); try by intros [= <- <-].
  destruct (let? olog := _ in _) as [fetched|]; [|done].
  by intros [= <- <-].
Qed.

(** X3. After a successful import, the loader's accessors return the tables
    the server holds in [TAXONOMY] and [ARCHETYPES] and leave the loader as
    it is, and [get_commutative_diagrams] returns without raising. *)
Theorem import_fills_the_loader (aesthetic intentionality : source)
    (k : PyHash.secret) (h : gmap loc pydict) (w : process) :
  import_server aesthetic intentionality k h = inr w →
  OlogLoader.get_taxonomy (OLOG_LOADER w) = (Ok (TAXONOMY w), OLOG_LOADER w)
  ∧ OlogLoader.get_intentionality_instances (OLOG_LOADER w)
    = (Ok (ARCHETYPES w), OLOG_LOADER w)
  ∧ ∃ diagrams, OlogLoader.get_commutative_diagrams (OLOG_LOADER w) = Ok diagrams.
Proof.
  intros (a & i & loader1 & _ & _ & Htx & Hinsts & _)%import_server_inv.
  pose proof (proj2 (loader_accessors_idempotent loader1) _ _ Hinsts) as Hagain.
  apply get_taxonomy_loader in Htx as (Hcache1 & Ha1 & Holog).
  apply get_instances_loader in Hinsts as (Hcache & Ha).
  split_and!; [|done|].
  - unfold OlogLoader.get_taxonomy. by rewrite Hcache, Hcache1.
  - destruct (Holog eq_refl) as [d Hd]. cbn in Hd, Ha1.
    unfold OlogLoader.get_commutative_diagrams. rewrite Ha, Ha1, Hd.
    by eexists.
Qed.

Lemma import_fills_the_loader_witness :
  let w := Sample.server (PyHash.secret_of_seed 0) ∅ in
  import_server (Parsed Sample.aesthetic) (Parsed Sample.intentionality)
    (PyHash.secret_of_seed 0) ∅ = inr w
  ∧ OlogLoader.get_taxonomy (OLOG_LOADER w) = (Ok (TAXONOMY w), OLOG_LOADER w)
  ∧ OlogLoader.get_commutative_diagrams (OLOG_LOADER w) = Ok (VDict []).
Proof.
  intros w. split; [reflexivity|].
  destruct (import_fills_the_loader (Parsed Sample.aesthetic)
              (Parsed Sample.intentionality) (PyHash.secret_of_seed 0) ∅ w eq_refl)
    as (Htx & _ & _).
  split; [exact Htx | reflexivity].
Defined.

(** * Further properties of the classification *)

Lemma is_upper_lower_char (c : ascii) : Py.is_upper (Py.lower_char c) = false.
Proof. by destruct c as [[] [] [] [] [] [] [] []]. Qed.

Lemma lower_has_no_upper (s : string) : ¬ has_upper (Py.lower s).
Proof.
  intros (c & Hin & Hc). induction s as [|c' s IH]; simpl in Hin.
  - by apply elem_of_nil in Hin.
  - apply elem_of_cons in Hin as [->|Hin]; [|by apply IH].
    by rewrite is_upper_lower_char in Hc.
Qed.

Lemma list_ascii_of_string_app (s1 s2 : string) :
  list_ascii_of_string (s1 +:+ s2) = list_ascii_of_string s1 ++ list_ascii_of_string s2.
Proof. induction s1 as [|c s1 IH]; simpl; [done | by rewrite IH]. Qed.

Lemma occurs_in_has_upper (kw text : string) :
  occurs_in kw text → has_upper kw → has_upper text.
Proof.
  intros (pre & post & ->) (c & Hin & Hc). exists c. split; [|done].
  rewrite !list_ascii_of_string_app, !elem_of_app. auto.
Qed.

(** X4. Keywords are compared as they stand with the lower-cased prompt: an
    archetype all of whose keywords have an upper-case letter is skipped by
    the classification loop, for every prompt. *)
Theorem uppercase_keywords_never_match (user_prompt name : string)
    (archetype : pyval) (kws : list string) (rest : pydict) :
  archetype_keywords archetype kws →
  Forall has_upper kws →
  match_archetype (Py.lower user_prompt) ((name, archetype) :: rest)
  = match_archetype (Py.lower user_prompt) rest.
Proof.
  intros Hkws Hupper. rewrite (match_archetype_step _ _ _ kws) by done.
  destruct (existsb _ kws) eqn:Hex; [|done].
  apply existsb_exists in Hex as (kw & Hin & Hc).
  apply list_elem_of_In in Hin. apply contains_true_iff in Hc.
  destruct (lower_has_no_upper user_prompt).
  apply (occurs_in_has_upper kw); [done|].
  by apply (proj1 (Forall_forall _ _) Hupper).
Qed.

Lemma uppercase_keywords_never_match_witness :
  let shouting := Sample.archetype_doc "delight" ["Happy"; "JOY"] in
  archetype_keywords shouting ["Happy"; "JOY"]
  ∧ Forall has_upper ["Happy"; "JOY"]
  ∧ match_archetype (Py.lower "Happy JOY")
      (("joyful_character_archetype", shouting) :: drop 1 Sample.catalogue)
    = Ok None.
Proof.
  intros shouting.
  assert (Forall has_upper ["Happy"; "JOY"]) as Hupper.
  { apply Forall_cons. split; [exists "H"%char; split; [left | done]|].
    apply Forall_cons. split; [exists "J"%char; split; [left | done]|].
    apply Forall_nil_2. }
  split; [apply sample_archetype_keywords|]. split; [exact Hupper|].
  rewrite (uppercase_keywords_never_match "Happy JOY" _ shouting ["Happy"; "JOY"]);
    [reflexivity | apply sample_archetype_keywords | exact Hupper].
Defined.

(** X5. The empty string occurs in every text: an archetype that lists the
    empty keyword stops the classification for every prompt.  The result is
    that archetype or one before it in the catalogue, never a later one and
    never the default. *)
Theorem empty_keyword_matches_everything (before after : pydict) (name : string)
    (archetype : pyval) (kws : list string) (text : string) :
  valid_catalogue before →
  name ≠ "" →
  archetype_keywords archetype kws →
  "" ∈ kws →
  ∃ tone found,
    infer_archetype (VDict (before ++ (name, archetype) :: after)) text
    = Ok (tone, found)
    ∧ (tone, found) ∈ before ++ [(name, archetype)].
Proof.
  intros Hbefore Hname Hkws Hempty.
  assert (∃ tone found,
            match_archetype text (before ++ (name, archetype) :: after)
            = Ok (Some (tone, found))
            ∧ tone ≠ "" ∧ (tone, found) ∈ before ++ [(name, archetype)])
    as (tone & found & Hmatch & Htone & Hin).
  { induction before as [|[n a] before IH].
    - exists name, archetype. rewrite app_nil_l.
      rewrite (match_archetype_step _ _ _ kws) by done.
      assert (existsb (λ kw, Py.contains kw text) kws = true) as ->.
      { apply existsb_exists. exists "". split; [by apply list_elem_of_In|].
        apply contains_true_iff. by exists "", text. }
      split_and!; [done..|]. left.
    - apply Forall_cons in Hbefore as [[Hn [kws' Hkws']] Hbefore].
      rewrite <- !app_comm_cons, (match_archetype_step _ _ _ kws') by done.
      destruct (existsb _ kws').
      + exists n, a. split_and!; [done..|]. left.
      + destruct (IH Hbefore) as (tone & found & ? & ? & ?).
        exists tone, found. split_and!; [done..|]. by right. }
  exists tone, found. split; [|done].
  unfold infer_archetype. cbn [Dyn.items rbind]. rewrite Hmatch. cbn [rbind].
  unfold Dyn.truthy. by destruct tone.
Qed.

Lemma empty_keyword_matches_everything_witness :
  let greedy := Sample.archetype_doc "anything" ["zzz"; ""] in
  ∃ tone found,
    infer_archetype
      (VDict (take 1 Sample.catalogue ++ ("sleepy_character_archetype", greedy)
              :: drop 1 Sample.catalogue)) "a quiet rock"
    = Ok (tone, found)
    ∧ (tone, found) ∈ take 1 Sample.catalogue ++ [("sleepy_character_archetype", greedy)].
Proof.
  intros greedy.
  apply (empty_keyword_matches_everything _ _ _ _ ["zzz"; ""]).
  - apply Forall_cons. split; [|apply Forall_nil_2].
    split; [done | eexists; apply sample_archetype_keywords].
  - done.
  - apply sample_archetype_keywords.
  - right. left.
Defined.

(** * Further properties of the design tool *)

(** The fields of a returned specification that are read off the archetype
    and the prompt. *)
Lemma design_specification_metadata (name tone : string) (seed : Z)
    (user_prompt : string) (choices : pydict) (archetype : pyval)
    (rationale : string) (spec : pydict) :
  design_specification name tone seed user_prompt choices archetype rationale
  = Ok spec →
  ∃ d, archetype = VDict d
       ∧ Dict.get "user_prompt" spec = Some (VStr user_prompt)
       ∧ Dict.get "design_rationale" spec = Some (VStr rationale)
       ∧ Dict.get "core_intention" spec
         = Some (default (VStr "") (Dict.get "core_intention" d))
       ∧ Dict.get "composition_principle" spec
         = Some (default (VStr "") (Dict.get "composition_principle" d))
       ∧ Dict.get "why_this_works" spec
         = Some (default (VStr "") (Dict.get "why_this_works" d))
       ∧ Dict.get "olog_source" spec = Some (VDict olog_source).
Proof.
  unfold design_specification. intros H.
  do 5 apply rbind_ok_inv in H as (? & _ & H).
  destruct archetype as [| | | | |d]; try done. cbn [Dyn.get rbind] in H.
  do 5 apply rbind_ok_inv in H as (? & _ & H).
  injection H as <-. by exists d.
Qed.

(** X6. When no archetype matches an ASCII prompt and the catalogue has no
    entry named [joyful_character_archetype], a call still succeeds as with
    a match: it reports the archetype [joyful_character_archetype] with
    empty [core_intention], [composition_principle] and [why_this_works]. *)
Theorem default_archetype_without_entry (w w' : process) (items : pydict)
    (user_prompt : string) (design_intent : option loc) (spec : pydict) :
  ARCHETYPES w = VDict items →
  valid_catalogue items →
  is_ascii user_prompt →
  Forall (λ e, ¬ matches (Py.lower user_prompt) e.2) items →
  "joyful_character_archetype" ∉ Dict.keys items →
  _generate_sanrio_character_impl user_prompt design_intent w = (Ok spec, w') →
  Dict.get "emotional_tone" spec = Some (VStr "joyful_character_archetype")
  ∧ Dict.get "core_intention" spec = Some (VStr "")
  ∧ Dict.get "composition_principle" spec = Some (VStr "")
  ∧ Dict.get "why_this_works" spec = Some (VStr "").
Proof.
  intros Hitems Hvalid _ Hnone Hjoyful%dict_get_None Hcall.
  apply impl_ok_inv in Hcall
    as (tone & archetype & choices & rationale & fw & Hinfer & _ & _ & Hspec).
  rewrite Hitems in Hinfer. unfold infer_archetype in Hinfer.
  cbn [Dyn.items Dyn.get rbind] in Hinfer.
  rewrite match_archetype_none, Hjoyful in Hinfer by done.
  injection Hinfer as <- <-.
  pose proof (design_specification_fields _ _ _ _ _ _ _ _ Hspec) as (_ & Htone & _).
  apply design_specification_metadata in Hspec
    as (d & [= <-] & _ & _ & Hcore & Hcomp & Hwhy & _).
  by split_and!.
Qed.

Lemma default_archetype_without_entry_witness :
  let w := set_heap ∅ (Process (OLOG_LOADER (Sample.server (PyHash.Secret 0 0) ∅))
                         Sample.taxonomy_table (VDict (drop 1 Sample.catalogue))
                         SystemSeeded ∅ (PyHash.Secret 0 0)) in
  ∃ spec,
    (_generate_sanrio_character_impl "a quiet rock" None w).1 = Ok spec
    ∧ Dict.get "emotional_tone" spec = Some (VStr "joyful_character_archetype")
    ∧ Dict.get "core_intention" spec = Some (VStr "").
Proof.
  intros w.
  destruct (_generate_sanrio_character_impl "a quiet rock" None w)
    as [outcome w'] eqn:Hcall.
  assert (∃ spec, outcome = Ok spec) as [spec ->].
  { vm_compute in Hcall. injection Hcall as <- _. by eexists. }
  exists spec. split; [done|].
  destruct (default_archetype_without_entry w w' (drop 1 Sample.catalogue)
              "a quiet rock" None spec) as (Htone & Hcore & _).
  - reflexivity.
  - pose proof sample_catalogue_valid as Hvalid.
    unfold Sample.catalogue in Hvalid. by apply Forall_cons in Hvalid as [_ ?].
  - compute_done.
  - unfold Sample.catalogue. cbn [drop].
    repeat (apply Forall_cons; split;
      [intros Hm;
       apply (proj2 (existsb_contains_matches _ _ _
                       (sample_archetype_keywords _ _))) in Hm;
       discriminate|]).
    apply Forall_nil_2.
  - compute_done.
  - exact Hcall.
  - by split.
Defined.

(** X7. The intent changes only the five choices and the rationale: two
    successful calls with the same prompt in the same process report the
    same name, archetype, seed and archetype texts, whatever intents they
    were given. *)
Theorem intent_leaves_identity_fields (user_prompt : string)
    (intent1 intent2 : option loc) (w1 w2 w1' w2' : process) (spec1 spec2 : pydict) :
  ARCHETYPES w1 = ARCHETYPES w2 →
  hash_secret w1 = hash_secret w2 →
  _generate_sanrio_character_impl user_prompt intent1 w1 = (Ok spec1, w1') →
  _generate_sanrio_character_impl user_prompt intent2 w2 = (Ok spec2, w2') →
  Forall (λ key, Dict.get key spec1 = Dict.get key spec2)
    [ "character_name"; "emotional_tone"; "archetype"; "design_seed";
      "user_prompt"; "core_intention"; "composition_principle";
      "why_this_works"; "olog_source" ].
Proof.
  intros Harch Hsecret Hcall1 Hcall2.
  apply impl_ok_inv in Hcall1
    as (tone & archetype & c1 & r1 & fw & Hinfer & _ & Hfw & Hspec1).
  apply impl_ok_inv in Hcall2
    as (tone' & archetype' & c2 & r2 & fw' & Hinfer' & _ & Hfw' & Hspec2).
  rewrite Harch, Hinfer' in Hinfer. injection Hinfer as -> ->.
  rewrite Hfw' in Hfw. injection Hfw as ->. rewrite Hsecret in Hspec1.
  pose proof (design_specification_fields _ _ _ _ _ _ _ _ Hspec1)
    as (Hn1 & Ht1 & Ha1 & Hs1 & _).
  pose proof (design_specification_fields _ _ _ _ _ _ _ _ Hspec2)
    as (Hn2 & Ht2 & Ha2 & Hs2 & _).
  apply design_specification_metadata in Hspec1
    as (d1 & -> & Hp1 & _ & Hc1 & Hcp1 & Hw1 & Ho1).
  apply design_specification_metadata in Hspec2
    as (d2 & [= <-] & Hp2 & _ & Hc2 & Hcp2 & Hw2 & Ho2).
  repeat (apply Forall_cons; split; [congruence|]). apply Forall_nil_2.
Qed.

Lemma intent_leaves_identity_fields_witness :
  let h : gmap loc pydict :=
    {[ 1%positive := [("weight_feeling", VStr "drooping")] ]} in
  let w := Sample.server (PyHash.secret_of_seed 0) h in
  ∃ spec1 spec2,
    (_generate_sanrio_character_impl "a sad day" None w).1 = Ok spec1
    ∧ (_generate_sanrio_character_impl "a sad day" (Some 1%positive) w).1 = Ok spec2
    ∧ Dict.get "head_shape" spec1 ≠ Dict.get "head_shape" spec2
    ∧ Dict.get "character_name" spec1 = Dict.get "character_name" spec2
    ∧ Dict.get "design_seed" spec1 = Dict.get "design_seed" spec2.
Proof.
  intros h w.
  destruct (_generate_sanrio_character_impl "a sad day" None w)
    as [o1 w1'] eqn:Hcall1.
  destruct (_generate_sanrio_character_impl "a sad day" (Some 1%positive) w)
    as [o2 w2'] eqn:Hcall2.
  assert (∃ spec1, o1 = Ok spec1
            ∧ Dict.get "head_shape" spec1 = Some (VStr "large_round_orb"))
    as (spec1 & -> & Hh1).
  { vm_compute in Hcall1. injection Hcall1 as <- _. by eexists. }
  assert (∃ spec2, o2 = Ok spec2
            ∧ Dict.get "head_shape" spec2 = Some (VStr "elongated_teardrop"))
    as (spec2 & -> & Hh2).
  { vm_compute in Hcall2. injection Hcall2 as <- _. by eexists. }
  exists spec1, spec2. split; [done|]. split; [done|].
  split; [by rewrite Hh1, Hh2|].
  pose proof (intent_leaves_identity_fields "a sad day" None (Some 1%positive)
                w w w1' w2' spec1 spec2 eq_refl eq_refl Hcall1 Hcall2) as Hsame.
  apply Forall_cons in Hsame as [Hname Hsame].
  do 2 apply Forall_cons in Hsame as [_ Hsame].
  by apply Forall_cons in Hsame as [Hseed _].
Defined.

(** * Further properties of the mapping *)

(** X8. Unlike the other dimensions, the colour triad is found by exact
    lookup: unless the lower-cased [color_feeling] is one of the nine keys
    of the table, the triad is [soft_pink_lavender_mint], also when the text
    contains a key. *)
Theorem color_triad_needs_exact_key (w : process) (design_intent choices : pydict)
    (color_feeling : string) :
  _map_intent_to_design_choices w design_intent = Ok choices →
  intent_text design_intent "color_feeling" = Ok color_feeling →
  color_feeling ∉ Dict.keys color_mapping →
  Dict.get "color_triad" choices = Some (VStr "soft_pink_lavender_mint").
Proof.
  intros Hmap Hcf Hkey%dict_get_None.
  apply map_intent_inv in Hmap
    as (head0 & heads & wf & ps & si & cf & tone & _ & _ & _ & _ & Hcf' & _ & ->).
  rewrite Hcf in Hcf'. injection Hcf' as <-. cbn [Dict.get String.eqb Ascii.eqb].
  by rewrite Hkey.
Qed.

Lemma color_triad_needs_exact_key_witness :
  let w := Sample.server (PyHash.secret_of_seed 0) ∅ in
  let intent : pydict := [("color_feeling", VStr "Muted, dusty")] in
  Py.contains "muted" "muted, dusty" = true
  ∧ ∃ choices,
      _map_intent_to_design_choices w intent = Ok choices
      ∧ Dict.get "color_triad" choices = Some (VStr "soft_pink_lavender_mint").
Proof.
  intros w intent. split; [reflexivity|].
  destruct (_map_intent_to_design_choices w intent) as [choices|] eqn:Hmap;
    [|by vm_compute in Hmap].
  exists choices. split; [done|].
  apply (color_triad_needs_exact_key w intent choices "muted, dusty");
    [done | reflexivity | compute_done].
Defined.



(** X10. A [size_implication] with "tiny" or "insignificant" decides the body
    proportion before any cue of [weight_feeling] is looked at: the result
    is [tiny_torso_large_head] even for a weighted or heavy feeling. *)
Theorem tiny_size_decides_body_proportion (w : process)
    (design_intent choices : pydict) (size_implication : string) :
  _map_intent_to_design_choices w design_intent = Ok choices →
  intent_text design_intent "size_implication" = Ok size_implication →
  Py.contains "tiny" size_implication || Py.contains "insignificant" size_implication
  = true →
  Dict.get "body_proportion" choices = Some (VStr "tiny_torso_large_head").
Proof.
  intros Hmap Hsi Hcue.
  apply map_intent_inv in Hmap
    as (head0 & heads & wf & ps & si & cf & tone & _ & _ & _ & Hsi' & _ & _ & ->).
  rewrite Hsi in Hsi'. injection Hsi' as <-. cbn [Dict.get String.eqb Ascii.eqb].
  unfold body_proportion_rule. by rewrite Hcue.
Qed.

Lemma tiny_size_decides_body_proportion_witness :
  let w := Sample.server (PyHash.secret_of_seed 0) ∅ in
  let intent : pydict :=
    [ ("mood", VStr "sluggish, heavy"); ("weight_feeling", VStr "drooping, weighted");
      ("color_feeling", VStr "muted, dusty");
      ("size_implication", VStr "small, insignificant");
      ("primary_shape", VStr "drooping or curved") ] in
  ∃ choices,
    _map_intent_to_design_choices w intent = Ok choices
    ∧ Dict.get "body_proportion" choices = Some (VStr "tiny_torso_large_head").
Proof.
  intros w intent.
  destruct (_map_intent_to_design_choices w intent) as [choices|] eqn:Hmap;
    [|by vm_compute in Hmap].
  exists choices. split; [done|].
  by apply (tiny_size_decides_body_proportion w intent choices "small, insignificant").
Defined.

Lemma taxonomy_instances_missing (tx : taxonomy) (name : string) :
  name ∉ Dict.keys tx → taxonomy_instances tx name = Raise KeyError.
Proof. intros H%dict_get_None. unfold taxonomy_instances. by rewrite H. Qed.

Lemma taxonomy_instances_raises (tx : taxonomy) (name : string) (e : exn) :
  taxonomy_instances tx name = Raise e → e = KeyError.
Proof.
  unfold taxonomy_instances. destruct (Dict.get name tx); [done | by intros [= <-]].
Qed.

(** X11. When the taxonomy lacks one of the five dimensions, the mapping
    raises [KeyError] for every intent. *)
Theorem missing_dimension_raises_key_error (w : process) (design_intent : pydict)
    (name : string) :
  name ∈ dimension_names →
  name ∉ Dict.keys (TAXONOMY w) →
  _map_intent_to_design_choices w design_intent = Raise KeyError.
Proof.
  intros Hname Hmissing%taxonomy_instances_missing.
  unfold _map_intent_to_design_choices.
  destruct (taxonomy_instances _ "HeadShape") as [?|e] eqn:H1;
    [|by apply taxonomy_instances_raises in H1 as ->].
  destruct (taxonomy_instances _ "BodyProportion") as [?|e] eqn:H2;
    [|by apply taxonomy_instances_raises in H2 as ->].
  destruct (taxonomy_instances _ "ColorTriad") as [?|e] eqn:H3;
    [|by apply taxonomy_instances_raises in H3 as ->].
  destruct (taxonomy_instances _ "SizeCategory") as [?|e] eqn:H4;
    [|by apply taxonomy_instances_raises in H4 as ->].
  destruct (taxonomy_instances _ "FacialStyle") as [?|e] eqn:H5;
    [|by apply taxonomy_instances_raises in H5 as ->].
  unfold dimension_names in Hname.
  repeat (apply elem_of_cons in Hname as [->|Hname]; [congruence|]).
  by apply elem_of_nil in Hname.
Qed.

Lemma missing_dimension_raises_key_error_witness :
  let h : gmap loc pydict := {[ 1%positive := [("mood", VStr "calm")] ]} in
  ∃ w, import_server (Parsed (VDict [("olog", VDict [("name", VStr "sanrio")])]))
         (Parsed Sample.intentionality) (PyHash.secret_of_seed 0) h = inr w
       ∧ TAXONOMY w = []
       ∧ _map_intent_to_design_choices w [("mood", VStr "calm")] = Raise KeyError
       ∧ (_generate_sanrio_character_impl "happy" (Some 1%positive) w).1
         = Raise KeyError.
Proof.
  intros h. eexists. split; [reflexivity|]. split; [reflexivity|]. split.
  - apply (missing_dimension_raises_key_error _ _ "FacialStyle"); [|compute_done].
    unfold dimension_names. do 4 right. left.
  - vm_compute. reflexivity.
Defined.

(** * Which parts of the intent are read *)

Lemma map_intent_tables (w1 w2 : process) (design_intent : pydict) :
  TAXONOMY w1 = TAXONOMY w2 →
  OLOG_LOADER w1 = OLOG_LOADER w2 →
  _map_intent_to_design_choices w1 design_intent
  = _map_intent_to_design_choices w2 design_intent.
Proof.
  intros Htx Hloader. unfold _map_intent_to_design_choices.
  by rewrite Htx, Hloader.
Qed.

Lemma intent_text_agree (d1 d2 : pydict) (k : string) :
  Dict.get k d1 = Dict.get k d2 → intent_text d1 k = intent_text d2 k.
Proof. unfold intent_text. by intros ->. Qed.

Lemma map_intent_agree (w : process) (d1 d2 : pydict) :
  Forall (λ k, Dict.get k d1 = Dict.get k d2)
    (intent_fields ++ ["inferred_emotional_tone"]) →
  _map_intent_to_design_choices w d1 = _map_intent_to_design_choices w d2.
Proof.
  unfold intent_fields. cbn [app]. intros Hfields.
  apply Forall_cons in Hfields as [Hwf Hfields].
  apply Forall_cons in Hfields as [Hps Hfields].
  apply Forall_cons in Hfields as [Hsi Hfields].
  apply Forall_cons in Hfields as [Hcf Hfields].
  apply Forall_cons in Hfields as [Htone _].
  unfold _map_intent_to_design_choices.
  by rewrite (intent_text_agree d1 d2 "weight_feeling"),
    (intent_text_agree d1 d2 "primary_shape"),
    (intent_text_agree d1 d2 "size_implication"),
    (intent_text_agree d1 d2 "color_feeling"),
    (intent_text_agree d1 d2 "inferred_emotional_tone").
Qed.

Lemma rationale_agree (choices d1 d2 : pydict) :
  Forall (λ k, Dict.get k d1 = Dict.get k d2) intent_fields →
  _get_design_rationale choices d1 = _get_design_rationale choices d2.
Proof.
  unfold intent_fields. intros Hfields.
  apply Forall_cons in Hfields as [Hwf Hfields].
  apply Forall_cons in Hfields as [Hps Hfields].
  apply Forall_cons in Hfields as [Hsi Hfields].
  apply Forall_cons in Hfields as [Hcf _].
  unfold _get_design_rationale.
  by rewrite (intent_text_agree d1 d2 "weight_feeling"),
    (intent_text_agree d1 d2 "size_implication"),
    (intent_text_agree d1 d2 "color_feeling").
Qed.

(** The outcome of a call with a non-empty intent record, as a value. *)
Lemma impl_intent_outcome (user_prompt : string) (l : loc) (w : process)
    (d : pydict) :
  heap w !! l = Some d →
  d ≠ [] →
  (_generate_sanrio_character_impl user_prompt (Some l) w).1
  = (let? (tone, archetype) :=
       infer_archetype (ARCHETYPES w) (Py.lower user_prompt) in
     let d' := Dict.set "inferred_emotional_tone" (VStr tone) d in
     let? choices := _map_intent_to_design_choices w d' in
     let? rationale := _get_design_rationale choices d' in
     let? first_word := first_word_of (Py.lower user_prompt) in
     design_specification
       (default "Sanrio" (Dict.get tone name_prefixes) +:+ Py.capitalize first_word)
       tone (derive_seed (hash_secret w) user_prompt) user_prompt choices
       archetype rationale).
Proof.
  intros Hl Hne.
  unfold _generate_sanrio_character_impl.
  unfold bind at 1, ask. unfold bind at 1, lift at 1.
  destruct (infer_archetype _ _) as [[tone archetype]|e]; [|done].
  cbn [rbind]. unfold bind at 1, random_seed.
  unfold bind at 1 2, deref at 1, ret at 1. cbn [heap set_random_state]. rewrite Hl.
  assert (Dyn.truthy (VDict d) = true) as -> by by destruct d.
  unfold bind at 1 2 3. unfold setitem. cbn [heap set_random_state]. rewrite Hl.
  unfold ask, bind at 1, deref. cbn [heap set_heap]. rewrite lookup_insert_eq.
  set (d' := Dict.set "inferred_emotional_tone" (VStr tone) d).
  set (w1 := set_heap _ _).
  rewrite (map_intent_tables w1 w d') by done.
  unfold bind at 1, lift at 1.
  destruct (_map_intent_to_design_choices w d') as [choices|e]; [|done].
  cbn [rbind]. unfold bind at 1, lift at 1.
  destruct (_get_design_rationale choices d') as [rationale|e]; [|done].
  cbn [rbind]. unfold ret, bind, lift.
  by destruct (first_word_of _).
Qed.

(** X12. The tool reads a non-empty intent record through four keys only
    ([weight_feeling], [primary_shape], [size_implication], [color_feeling]):
    two non-empty records that agree on these give the same outcome, so
    [mood], [design_rationale] and an [inferred_emotional_tone] supplied by
    the caller have no influence. *)
Theorem intent_is_read_through_four_fields (user_prompt : string) (l : loc)
    (w : process) (d1 d2 : pydict) :
  heap w !! l = Some d1 →
  d1 ≠ [] →
  d2 ≠ [] →
  Forall (λ k, Dict.get k d1 = Dict.get k d2) intent_fields →
  (_generate_sanrio_character_impl user_prompt (Some l)
     (set_heap (<[l := d2]> (heap w)) w)).1
  = (_generate_sanrio_character_impl user_prompt (Some l) w).1.
Proof.
  intros Hl Hne1 Hne2 Hfields.
  rewrite (impl_intent_outcome user_prompt l w d1) by done.
  rewrite (impl_intent_outcome user_prompt l _ d2);
    [|cbn [heap set_heap]; apply lookup_insert_eq | done].
  cbn [ARCHETYPES hash_secret set_heap].
  destruct (infer_archetype _ _) as [[tone archetype]|e]; [|done].
  cbn [rbind].
  set (d1' := Dict.set "inferred_emotional_tone" (VStr tone) d1).
  set (d2' := Dict.set "inferred_emotional_tone" (VStr tone) d2).
  assert (Forall (λ k, Dict.get k d2' = Dict.get k d1') intent_fields) as Hagree.
  { unfold intent_fields in *.
    repeat (apply Forall_cons in Hfields as [? Hfields]).
    repeat (apply Forall_cons; split;
            [unfold d1', d2'; by rewrite !dict_get_set_ne|]).
    apply Forall_nil_2. }
  rewrite (map_intent_tables _ w d2') by done.
  rewrite (map_intent_agree w d2' d1').
  - destruct (_map_intent_to_design_choices w d1') as [choices|e]; [|done].
    cbn [rbind]. by rewrite (rationale_agree choices d2' d1').
  - apply Forall_app. split; [done|].
    apply Forall_cons. split; [|apply Forall_nil_2].
    unfold d1', d2'. by rewrite !dict_get_set_eq.
Qed.

Lemma intent_is_read_through_four_fields_witness :
  let d1 : pydict := [("weight_feeling", VStr "heavy")] in
  let d2 : pydict :=
    [ ("mood", VStr "gloomy"); ("inferred_emotional_tone", VStr "sleepy");
      ("weight_feeling", VStr "heavy"); ("design_rationale", VInt 7) ] in
  let w := Sample.server (PyHash.secret_of_seed 0) {[ 1%positive := d1 ]} in
  (_generate_sanrio_character_impl "a happy stone" (Some 1%positive)
     (set_heap (<[1%positive := d2]> (heap w)) w)).1
  = (_generate_sanrio_character_impl "a happy stone" (Some 1%positive) w).1.
Proof.
  intros d1 d2 w.
  apply (intent_is_read_through_four_fields _ _ w d1 d2); [reflexivity|done|done|].
  unfold intent_fields.
  repeat (apply Forall_cons; split; [reflexivity|]). apply Forall_nil_2.
Defined.

(** * Totality, and absent intent fields *)








(** * The rationale and the name *)

(** X13. The rationale is never empty: when the intent has none of the four
    cues (droop or weighted in [weight_feeling], muted in [color_feeling],
    small in [size_implication]) it is the generic sentence, and otherwise
    it is a list of clauses the first of which begins with "The ". *)
Theorem rationale_generic_or_clauses (design_choices design_intent : pydict)
    (rationale : string) :
  _get_design_rationale design_choices design_intent = Ok rationale →
  ∃ weight_feeling color_feeling size_implication,
    intent_text design_intent "weight_feeling" = Ok weight_feeling
    ∧ intent_text design_intent "color_feeling" = Ok color_feeling
    ∧ intent_text design_intent "size_implication" = Ok size_implication
    ∧ if Py.contains "droop" weight_feeling || Py.contains "weighted" weight_feeling
         || Py.contains "muted" color_feeling || Py.contains "small" size_implication
      then ∃ rest, rationale = "The " +:+ rest
      else rationale = "Design choices selected to match emotional intent".
Proof.
  unfold _get_design_rationale. intros H.
  apply rbind_ok_inv in H as (wf & Hwf & H). rewrite Hwf in H. cbn [rbind] in H.
  apply rbind_ok_inv in H as (cf & Hcf & H).
  apply rbind_ok_inv in H as (si & Hsi & H).
  exists wf, cf, si. split_and!; [done..|].
  injection H as <-. unfold append_if.
  destruct (Py.contains "droop" wf), (Py.contains "weighted" wf),
    (Py.contains "muted" cf), (Py.contains "small" si);
    cbn [orb app Py.join]; try done; eexists; simpl; reflexivity.
Qed.

Lemma rationale_generic_or_clauses_witness :
  ∃ rationale,
    _get_design_rationale archetype_defaults [("size_implication", VStr "Small")]
    = Ok rationale
    ∧ rationale = "The small_plush_toy reflects vulnerability and intimacy".
Proof.
  eexists. split; [reflexivity|].
  destruct (rationale_generic_or_clauses archetype_defaults
              [("size_implication", VStr "Small")] _ eq_refl)
    as (wf & cf & si & _ & _ & _ & _).
  reflexivity.
Defined.

Lemma rev_app_nonempty (s acc : string) : acc ≠ "" → String.rev_app s acc ≠ "".
Proof.
  revert acc. induction s as [|c s IH]; intros acc Hacc; simpl; [done|].
  by apply IH.
Qed.

Lemma split_go_tokens (cur : option string) (s : string) :
  (∀ t, cur = Some t → t ≠ "") →
  Forall (λ token, token ≠ "") (Py.split_go cur s).
Proof.
  revert cur. induction s as [|c s IH]; intros cur Hcur; simpl.
  - destruct cur as [t|]; simpl; [|apply Forall_nil_2].
    apply Forall_cons. split; [|apply Forall_nil_2].
    destruct t as [|c' t]; [by destruct (Hcur "")|].
    unfold String.rev. simpl. by apply rev_app_nonempty.
  - destruct (Py.is_space c).
    + apply Forall_app. split; [|by apply IH].
      destruct cur as [t|]; simpl; [|apply Forall_nil_2].
      apply Forall_cons. split; [|apply Forall_nil_2].
      destruct t as [|c' t]; [by destruct (Hcur "")|].
      unfold String.rev. simpl. by apply rev_app_nonempty.
    + apply IH. by intros t [= <-].
Qed.

Lemma lower_length (s : string) : String.length (Py.lower s) = String.length s.
Proof. induction s as [|c s IH]; simpl; [done | by rewrite IH]. Qed.

Lemma slice_to_length (n : nat) (s : string) :
  String.length (Py.slice_to n s) = (n `min` String.length s)%nat.
Proof.
  revert s. induction n as [|n IH]; intros [|c s]; simpl; try done.
  by rewrite IH.
Qed.

Lemma is_lower_upper_char (c : ascii) : Py.is_lower (Py.upper_char c) = false.
Proof. by destruct c as [[] [] [] [] [] [] [] []]. Qed.

(** X14. For an ASCII prompt, the character name of a returned
    specification is one of the eight prefixes ("Sanrio" for an archetype
    outside the table) followed by one to three characters, the first of
    which is not a lower-case letter. *)
Theorem character_name_shape (user_prompt : string) (design_intent : option loc)
    (w w' : process) (spec : pydict) :
  is_ascii user_prompt →
  _generate_sanrio_character_impl user_prompt design_intent w = (Ok spec, w') →
  ∃ prefix c rest,
    Dict.get "character_name" spec = Some (VStr (prefix +:+ String c rest))
    ∧ prefix ∈ "Sanrio" :: name_prefixes.*2
    ∧ Py.is_lower c = false
    ∧ (String.length rest ≤ 2)%nat.
Proof.
  intros _ Hcall.
  apply impl_ok_inv in Hcall
    as (tone & archetype & choices & rationale & fw & _ & _ & Hfw & Hspec).
  apply design_specification_fields in Hspec as (Hname & _).
  unfold first_word_of in Hfw.
  pose proof (split_go_tokens None (Py.lower user_prompt)) as Htokens.
  fold (Py.split (Py.lower user_prompt)) in Htokens.
  destruct (Py.split (Py.lower user_prompt)) as [|token tokens]; [done|].
  injection Hfw as <-.
  apply Forall_cons in Htokens as [Htoken _]; [|done].
  destruct token as [|c token]; [done|].
  exists (default "Sanrio" (Dict.get tone name_prefixes)), (Py.upper_char c),
    (Py.lower (Py.slice_to 2 token)).
  split_and!.
  - exact Hname.
  - unfold name_prefixes. cbn [Dict.get]. repeat case_match; compute_done.
  - apply is_lower_upper_char.
  - rewrite lower_length, slice_to_length. lia.
Qed.

Lemma character_name_shape_witness :
  let w := Sample.server (PyHash.secret_of_seed 0) ∅ in
  ∃ spec prefix c rest,
    (_generate_sanrio_character_impl "  procrastination again" None w).1 = Ok spec
    ∧ Dict.get "character_name" spec = Some (VStr "MelanPro")
    ∧ Dict.get "character_name" spec = Some (VStr (prefix +:+ String c rest))
    ∧ (String.length rest ≤ 2)%nat.
Proof.
  intros w.
  destruct (_generate_sanrio_character_impl "  procrastination again" None w)
    as [outcome w'] eqn:Hcall.
  assert (∃ spec, outcome = Ok spec
            ∧ Dict.get "character_name" spec = Some (VStr "MelanPro"))
    as (spec & -> & Hname).
  { vm_compute in Hcall. injection Hcall as <- _. by eexists. }
  assert (is_ascii "  procrastination again") as Hascii by compute_done.
  destruct (character_name_shape _ _ _ _ _ Hascii Hcall)
    as (prefix & c & rest & Hshape & _ & _ & Hlen).
  by exists spec, prefix, c, rest.
Defined.

(** * Further properties of the rule lookup *)

(** X15. The lookup tests the entry for truth, not for presence: a name that
    is in the catalogue with an empty entry (an empty dict, [None], an empty
    list or string, zero, false) gets the same [error] result as an unknown
    name. *)
Theorem empty_archetype_entry_is_unknown (w : process) (items : pydict)
    (emotional_tone : string) (entry : pyval) :
  (OlogLoader.get_intentionality_instances (OLOG_LOADER w)).1 = Ok (VDict items) →
  Dict.get emotional_tone items = Some entry →
  Dyn.truthy entry = false →
  (get_archetype_rules emotional_tone w).1
  = Ok [("error", VStr ("Unknown archetype: " +:+ emotional_tone))].
Proof.
  intros Hcat Hentry Hfalsy.
  unfold get_archetype_rules, OlogLoader.get_archetype_rules.
  destruct (OlogLoader.get_intentionality_instances _) as [insts self].
  simpl in Hcat. subst insts. cbn [Dyn.get]. rewrite Hentry. cbn [from_option id].
  by rewrite Hfalsy.
Qed.

Lemma empty_archetype_entry_is_unknown_witness :
  let items : pydict := ("quiet_character_archetype", VDict []) :: Sample.catalogue in
  let w := Process (OlogLoader.Loader Sample.aesthetic Sample.intentionality
                      (Some Sample.taxonomy_table) (VDict items))
             Sample.taxonomy_table (VDict items) SystemSeeded ∅ (PyHash.Secret 0 0) in
  ("quiet_character_archetype" ∈ Dict.keys items)
  ∧ (get_archetype_rules "quiet_character_archetype" w).1
    = Ok [("error", VStr "Unknown archetype: quiet_character_archetype")].
Proof.
  intros items w. split; [left|].
  exact (empty_archetype_entry_is_unknown w items "quiet_character_archetype"
           (VDict []) eq_refl eq_refl eq_refl).
Defined.

(** X16. For a name whose catalogue entry is a non-empty dict, the lookup
    returns the nine rule fields in their fixed order: [archetype] is the
    name asked for, [design_keywords] is the entry's
    [design_intent_keywords], and each field the entry lacks is the empty
    string, list or dict. *)
Theorem known_archetype_rules (w : process) (items d : pydict)
    (emotional_tone : string) :
  (OlogLoader.get_intentionality_instances (OLOG_LOADER w)).1 = Ok (VDict items) →
  Dict.get emotional_tone items = Some (VDict d) →
  d ≠ [] →
  (get_archetype_rules emotional_tone w).1
  = Ok [ ("archetype", VStr emotional_tone);
         ("core_intention", default (VStr "") (Dict.get "core_intention" d));
         ("composition_principle",
           default (VStr "") (Dict.get "composition_principle" d));
         ("why_this_works", default (VStr "") (Dict.get "why_this_works" d));
         ("sensory_principles", default (VList []) (Dict.get "sensory_principles" d));
         ("proportion_rules", default (VDict []) (Dict.get "proportion_rules" d));
         ("design_keywords", default (VList []) (Dict.get "design_intent_keywords" d));
         ("forbidden_combinations",
           default (VList []) (Dict.get "forbidden_combinations" d));
         ("examples", default (VList []) (Dict.get "examples" d)) ].
Proof.
  intros Hcat Hentry Hne.
  unfold get_archetype_rules, OlogLoader.get_archetype_rules.
  destruct (OlogLoader.get_intentionality_instances _) as [insts self].
  simpl in Hcat. subst insts. cbn [Dyn.get]. rewrite Hentry. cbn [from_option id].
  by destruct d.
Qed.

Lemma known_archetype_rules_witness :
  let w := Sample.server (PyHash.secret_of_seed 0) ∅ in
  ∃ rules,
    (get_archetype_rules "dreamy_character_archetype" w).1 = Ok rules
    ∧ Dict.get "design_keywords" rules = Some (VList [VStr "dream"])
    ∧ Dict.get "examples" rules = Some (VList []).
Proof.
  intros w. eexists. split.
  - apply (known_archetype_rules w Sample.catalogue
             [ ("core_intention", VStr "wonder");
               ("design_intent_keywords", VList [VStr "dream"]) ]);
      [reflexivity | reflexivity | done].
  - split; reflexivity.
Defined.

(** X17. The rule lookup leaves the server as it is: in every state that
    has the loader an import left, the call returns the very state it was
    given. *)
Theorem rule_lookup_changes_nothing (aesthetic intentionality : source)
    (k : PyHash.secret) (h : gmap loc pydict) (w0 w : process)
    (emotional_tone : string) :
  import_server aesthetic intentionality k h = inr w0 →
  OLOG_LOADER w = OLOG_LOADER w0 →
  (get_archetype_rules emotional_tone w).2 = w.
Proof.
  intros Himport Hloader.
  destruct (import_fills_the_loader _ _ _ _ _ Himport) as (_ & Hinsts & _).
  rewrite <- Hloader in Hinsts.
  unfold get_archetype_rules, OlogLoader.get_archetype_rules. rewrite Hinsts.
  assert (set_loader (OLOG_LOADER w) w = w) as Hsame by by destruct w.
  destruct (Dyn.get _ _ _) as [archetype|e]; [|by rewrite Hsame].
  destruct (negb _); [by rewrite Hsame|].
  by destruct (let? core_intention := _ in _); rewrite Hsame.
Qed.

Lemma rule_lookup_changes_nothing_witness :
  let w0 := Sample.server (PyHash.secret_of_seed 0) ∅ in
  let w := (_generate_sanrio_character_impl "happy character" None w0).2 in
  w ≠ w0
  ∧ (get_archetype_rules "dreamy_character_archetype" w).2 = w
  ∧ (get_archetype_rules "nonexistent" w).2 = w.
Proof.
  intros w0 w.
  assert (random_state w = Seeded 55) as Hrng by (vm_compute; reflexivity).
  split; [intros Heq; by rewrite Heq in Hrng|].
  split;
    apply (rule_lookup_changes_nothing (Parsed Sample.aesthetic)
             (Parsed Sample.intentionality) (PyHash.secret_of_seed 0) ∅ w0);
    reflexivity.
Defined.

(** * How classification and choices combine *)

(** X18. With a non-empty intent the facial style follows the classified
    archetype, whatever the record says: it is the style the table has for
    the lower-cased archetype name, and [dot_eyes_curved_smile] for a name
    outside the table. *)
Theorem facial_style_follows_archetype (user_prompt : string) (l : loc)
    (w w' : process) (d spec : pydict) :
  heap w !! l = Some d →
  d ≠ [] →
  _generate_sanrio_character_impl user_prompt (Some l) w = (Ok spec, w') →
  ∃ tone,
    Dict.get "emotional_tone" spec = Some (VStr tone)
    ∧ Dict.get "facial_style" spec
      = Some (VStr (default "dot_eyes_curved_smile"
                      (Dict.get (Py.lower tone) facial_mapping))).
Proof.
  intros Hl Hne Hcall.
  apply impl_ok_inv in Hcall
    as (tone & archetype & choices & rationale & fw & _ & Hres & _ & Hspec).
  apply design_specification_fields in Hspec
    as (_ & Htone & _ & _ & _ & _ & Hface & _).
  exists tone. split; [done|]. rewrite Hface.
  inversion Hres as [|? Hl'|? d0 ? ? Hl' Hne' d' w1 Hmap Hrat]; subst;
    cbn in Hl'; rewrite Hl in Hl'; simplify_eq.
  apply map_intent_inv in Hmap
    as (head0 & heads & wf & ps & si & cf & t & _ & _ & _ & _ & _ & Ht & ->).
  unfold intent_text, d' in Ht. rewrite dict_get_set_eq in Ht.
  by injection Ht as <-.
Qed.

Lemma facial_style_follows_archetype_witness :
  let d : pydict :=
    [ ("inferred_emotional_tone", VStr "sleepy_character_archetype");
      ("mood", VStr "bright") ] in
  let w := Sample.server (PyHash.secret_of_seed 0) {[ 1%positive := d ]} in
  ∃ spec,
    (_generate_sanrio_character_impl "Nervous wreck" (Some 1%positive) w).1 = Ok spec
    ∧ Dict.get "emotional_tone" spec = Some (VStr "anxious_character_archetype")
    ∧ Dict.get "facial_style" spec = Some (VStr "worried_upturned_eyes").
Proof.
  intros d w.
  destruct (_generate_sanrio_character_impl "Nervous wreck" (Some 1%positive) w)
    as [outcome w'] eqn:Hcall.
  assert (∃ spec, outcome = Ok spec
            ∧ Dict.get "emotional_tone" spec
              = Some (VStr "anxious_character_archetype"))
    as (spec & -> & Htone).
  { vm_compute in Hcall. injection Hcall as <- _. by eexists. }
  exists spec. split; [done|]. split; [done|].
  destruct (facial_style_follows_archetype "Nervous wreck" 1%positive w w' d spec)
    as (tone & Htone' & Hface); [reflexivity | done | done |].
  rewrite Htone in Htone'. injection Htone' as <-. exact Hface.
Defined.

(** X19. Without an intent the taxonomy is not read and the archetype does
    not enter the choices: over a valid catalogue, whatever the taxonomy
    holds, every ASCII prompt with a token gets a specification with the
    same five fixed choices, and the rationale names the archetype. *)
Theorem no_intent_choices_are_fixed (w : process) (items : pydict)
    (user_prompt : string) :
  ARCHETYPES w = VDict items →
  valid_catalogue items →
  is_ascii user_prompt →
  has_token user_prompt →
  ∃ spec w' tone,
    _generate_sanrio_character_impl user_prompt None w = (Ok spec, w')
    ∧ Forall (λ key, Dict.get key spec = Dict.get key archetype_defaults)
        (choice_keys.*1)
    ∧ Dict.get "emotional_tone" spec = Some (VStr tone)
    ∧ Dict.get "design_rationale" spec
      = Some (VStr ("Archetype-based selection: " +:+ tone)).
Proof.
  intros Hitems Hvalid _ Htoken.
  destruct (infer_archetype_ok items (Py.lower user_prompt) Hvalid)
    as (tone & archetype & Hinfer & [d ->]).
  destruct (first_word_ok user_prompt Htoken) as [fw Hfw].
  destruct (design_specification_ok
              (default "Sanrio" (Dict.get tone name_prefixes) +:+ Py.capitalize fw)
              tone (derive_seed (hash_secret w) user_prompt) user_prompt
              archetype_defaults (VDict d)
              ("Archetype-based selection: " +:+ tone)
              string_choices_defaults (ex_intro _ d eq_refl)) as [spec Hspec].
  exists spec, (set_random_state (Seeded (derive_seed (hash_secret w) user_prompt)) w),
    tone.
  split.
  - unfold _generate_sanrio_character_impl, bind, ask, lift, ret, random_seed.
    rewrite Hitems, Hinfer. cbn [Dyn.get]. by rewrite Hfw, Hspec.
  - pose proof (design_specification_fields _ _ _ _ _ _ _ _ Hspec)
      as (_ & Htone & _ & _ & Hhead & Hbody & Hface & Hcolor & Hsize).
    apply design_specification_metadata in Hspec as (_ & _ & _ & Hrat & _).
    split_and!; [|done..].
    unfold choice_keys. cbn [fmap list_fmap fst].
    repeat (apply Forall_cons; split; [done|]). apply Forall_nil_2.
Qed.

Lemma no_intent_choices_are_fixed_witness :
  let w := Process (OlogLoader.Loader VNone Sample.intentionality (Some [])
                      (VDict Sample.catalogue))
             [] (VDict Sample.catalogue) SystemSeeded ∅ (PyHash.Secret 0 0) in
  ∃ spec w',
    _generate_sanrio_character_impl "so tired" None w = (Ok spec, w')
    ∧ Dict.get "facial_style" spec = Some (VStr "dot_eyes_curved_smile")
    ∧ Dict.get "design_rationale" spec
      = Some (VStr "Archetype-based selection: sleepy_character_archetype").
Proof.
  intros w.
  destruct (no_intent_choices_are_fixed w Sample.catalogue "so tired")
    as (spec & w' & tone & Hcall & Hchoices & Htone & Hrat).
  - reflexivity.
  - apply sample_catalogue_valid.
  - compute_done.
  - exists "s"%char. split; [left | reflexivity].
  - exists spec, w'. split; [exact Hcall|].
    unfold choice_keys in Hchoices. cbn [fmap list_fmap fst] in Hchoices.
    do 2 apply Forall_cons in Hchoices as [_ Hchoices].
    apply Forall_cons in Hchoices as [Hface _]. split; [exact Hface|].
    assert (tone = "sleepy_character_archetype") as <-; [|exact Hrat].
    vm_compute in Hcall. injection Hcall as <- _.
    vm_compute in Htone. by injection Htone.
Defined.

(** X20. Classification and name look at the lower-cased prompt only: two
    successful calls whose prompts differ in letter case at most report the
    same archetype and the same character name.  (The seed is computed from
    the prompt as typed.) *)
Theorem letter_case_keeps_archetype_and_name (prompt1 prompt2 : string)
    (intent1 intent2 : option loc) (w1 w2 w1' w2' : process) (spec1 spec2 : pydict) :
  Py.lower prompt1 = Py.lower prompt2 →
  ARCHETYPES w1 = ARCHETYPES w2 →
  _generate_sanrio_character_impl prompt1 intent1 w1 = (Ok spec1, w1') →
  _generate_sanrio_character_impl prompt2 intent2 w2 = (Ok spec2, w2') →
  Dict.get "emotional_tone" spec1 = Dict.get "emotional_tone" spec2
  ∧ Dict.get "character_name" spec1 = Dict.get "character_name" spec2.
Proof.
  intros Hlower Harch Hcall1 Hcall2.
  apply impl_ok_inv in Hcall1
    as (tone & archetype & c1 & r1 & fw & Hinfer & _ & Hfw & Hspec1).
  apply impl_ok_inv in Hcall2
    as (tone' & archetype' & c2 & r2 & fw' & Hinfer' & _ & Hfw' & Hspec2).
  rewrite Harch, Hlower, Hinfer' in Hinfer. injection Hinfer as -> ->.
  rewrite Hlower, Hfw' in Hfw. injection Hfw as ->.
  apply design_specification_fields in Hspec1 as (Hn1 & Ht1 & _).
  apply design_specification_fields in Hspec2 as (Hn2 & Ht2 & _).
  split; congruence.
Qed.

Lemma letter_case_keeps_archetype_and_name_witness :
  let w := Sample.server (PyHash.secret_of_seed 0) ∅ in
  ∃ spec1 spec2,
    (_generate_sanrio_character_impl "Happy Day" None w).1 = Ok spec1
    ∧ (_generate_sanrio_character_impl "HAPPY day" None w).1 = Ok spec2
    ∧ Dict.get "character_name" spec1 = Dict.get "character_name" spec2
    ∧ Dict.get "design_seed" spec1 ≠ Dict.get "design_seed" spec2.
Proof.
  intros w.
  destruct (_generate_sanrio_character_impl "Happy Day" None w)
    as [o1 w1'] eqn:Hcall1.
  destruct (_generate_sanrio_character_impl "HAPPY day" None w)
    as [o2 w2'] eqn:Hcall2.
  assert (∃ spec1 s1, o1 = Ok spec1 ∧ Dict.get "design_seed" spec1 = Some (VInt s1)
            ∧ ∃ spec2 s2, o2 = Ok spec2
                ∧ Dict.get "design_seed" spec2 = Some (VInt s2) ∧ s1 ≠ s2)
    as (spec1 & s1 & -> & Hs1 & spec2 & s2 & -> & Hs2 & Hdiff).
  { vm_compute in Hcall1, Hcall2. injection Hcall1 as <- _.
    injection Hcall2 as <- _. eexists _, _. split; [reflexivity|].
    split; [reflexivity|]. eexists _, _. split; [reflexivity|].
    split; [reflexivity | done]. }
  exists spec1, spec2. split; [done|]. split; [done|]. split.
  - exact (proj2 (letter_case_keeps_archetype_and_name "Happy Day" "HAPPY day"
                    None None w w w1' w2' spec1 spec2 eq_refl eq_refl Hcall1 Hcall2)).
  - rewrite Hs1, Hs2. congruence.
Defined.
